(** * Calert: the calendar-sync and event-fetch functions, and the profile upsert

    A shallow embedding of
      - supabase/functions/fetch-events/index.ts
      - supabase/functions/sync-calendars/index.ts
      - the AuthProvider context of the frontend (createOrUpdateProfile)
      - the relational schema (tables profiles, user_settings, user_calendars)
    followed by the properties of the request/response contracts. *)

From Stdlib Require Import ZArith String Ascii List Bool Lia DecimalString Sorted.
From stdpp Require Import base option list strings gmap.
Import ListNotations.

Local Open Scope string_scope.
Local Open Scope Z_scope.

(** ** JavaScript values used by the handlers *)

(** An optional string property: [None] is [undefined]/[null], [Some s] a
    string.  The only falsy string is the empty one. *)
Definition truthy (v : option string) : bool :=
  match v with
  | Some s => negb (String.eqb s "")
  | None => false
  end.

(** [a || b] on optional strings. *)
Definition js_or (a b : option string) : option string :=
  if truthy a then a else b.

(** [a || 'literal'], whose value is always a string. *)
Definition js_or_str (a : option string) (d : string) : string :=
  match js_or a (Some d) with
  | Some s => s
  | None => d
  end.

(** [a || false] on an optional boolean. *)
Definition js_or_false (a : option bool) : bool :=
  match a with
  | Some b => b
  | None => false
  end.

(** [s.replace(pat, rep)] with a string pattern: the first occurrence only. *)
Fixpoint replace (pat rep s : string) : string :=
  if String.prefix pat s
  then rep ++ String.substring (String.length pat) (String.length s) s
  else match s with
       | EmptyString => EmptyString
       | String c s' => String c (replace pat rep s')
       end.

(** [s.split(sep)[0]] for a one-character separator: the text before the
    first separator, the whole string when there is none. *)
Fixpoint split_head (sep : ascii) (s : string) : string :=
  match s with
  | EmptyString => EmptyString
  | String c s' => if Ascii.eqb c sep then EmptyString else String c (split_head sep s')
  end.

(** Template-literal rendering of a non-negative integer. *)
Definition number_to_string (n : nat) : string :=
  NilZero.string_of_uint (Nat.to_uint n).

(** The JSON values handed to [JSON.stringify]. *)
#[local] Set Warnings "-register-all".
Inductive JSON : Type :=
  | JNull
  | JBool (b : bool)
  | JNumber (n : Z)
  | JString (s : string)
  | JArray (items : list JSON)
  | JObject (fields : list (string * JSON)).

Definition JOptString (v : option string) : JSON :=
  match v with
  | Some s => JString s
  | None => JNull
  end.

(** Property access on a JSON object. *)
Fixpoint assoc (k : string) (fields : list (string * JSON)) : option JSON :=
  match fields with
  | [] => None
  | (k', v) :: rest => if String.eqb k k' then Some v else assoc k rest
  end.

Definition field (k : string) (j : JSON) : option JSON :=
  match j with
  | JObject fields => assoc k fields
  | _ => None
  end.

(** ** Provider payloads *)

Module EventTime.
Record t := { dateTime : option string; date : option string }.
End EventTime.

(** [interface GoogleEvent].  [summary] is declared as a plain string but is
    defaulted by the handler, so it is optional here like the other
    defaulted properties. *)
Module GoogleEvent.
Record t := {
  id : string;
  summary : option string;
  description : option string;
  start : EventTime.t;
  end_ : EventTime.t;
  location : option string;
  htmlLink : option string;
  hangoutLink : option string;
}.
End GoogleEvent.

(** [interface GoogleCalendar]. *)
Module GoogleCalendar.
Record t := {
  id : string;
  summary : string;
  description : option string;
  primary : option bool;
}.
End GoogleCalendar.

(** The normalized event of the fetch response.  [startTime] and [endTime]
    are [event.start.dateTime] and [event.end.dateTime] as they are. *)
Module Event.
Record t := {
  id : string;
  title : string;
  description : string;
  startTime : option string;
  endTime : option string;
  location : string;
  meetingLink : string;
}.

Definition to_json (e : t) : JSON :=
  JObject [ ("id", JString (id e));
            ("title", JString (title e));
            ("description", JString (description e));
            ("startTime", JOptString (startTime e));
            ("endTime", JOptString (endTime e));
            ("location", JString (location e));
            ("meetingLink", JString (meetingLink e)) ].
End Event.

(** ** The relational store (schema of the migration)

    The rows hold the columns that the functions and the frontend set and
    read.  The columns the store fills in by itself are left out: [id]
    (a generated uuid), [created_at], and [updated_at], which a
    BEFORE UPDATE trigger of each table rewrites on every update of a row.
    Two stores that are equal here can differ in those columns. *)

(** A row of [user_settings]; the key [user_id] is UNIQUE, so the table is a
    finite map from [user_id]. *)
Module UserSettings.
Record t := {
  selected_calendar_id : option string;
  service_enabled : bool;
  google_access_token : option string;
  google_refresh_token : option string;
  google_token_expires_at : option string;
}.

(** Column defaults of a freshly inserted row. *)
Definition default : t :=
  {| selected_calendar_id := None;
     service_enabled := false;
     google_access_token := None;
     google_refresh_token := None;
     google_token_expires_at := None |}.

Definition with_token (tok : string) (s : t) : t :=
  {| selected_calendar_id := selected_calendar_id s;
     service_enabled := service_enabled s;
     google_access_token := Some tok;
     google_refresh_token := google_refresh_token s;
     google_token_expires_at := google_token_expires_at s |}.
End UserSettings.

(** A row of [user_calendars], as inserted by the sync function. *)
Module UserCalendar.
Record t := {
  user_id : string;
  calendar_id : string;
  calendar_name : string;
  calendar_description : option string;
  is_primary : bool;
}.

Definition key (r : t) : string * string := (user_id r, calendar_id r).

Definition to_json (r : t) : JSON :=
  JObject [ ("user_id", JString (user_id r));
            ("calendar_id", JString (calendar_id r));
            ("calendar_name", JString (calendar_name r));
            ("calendar_description", JOptString (calendar_description r));
            ("is_primary", JBool (is_primary r)) ].
End UserCalendar.

(** A row of [profiles], keyed by the UNIQUE [user_id]. *)
Module Profile.
Record t := {
  email : option string;
  display_name : option string;
  avatar_url : option string;
}.
End Profile.

Record Database := {
  user_settings : gmap string UserSettings.t;
  user_calendars : list UserCalendar.t;
  profiles : gmap string Profile.t;
}.

(** UNIQUE(user_id, calendar_id) on [user_calendars]. *)
Definition unique_calendars (rows : list UserCalendar.t) : Prop :=
  NoDup (map UserCalendar.key rows).

Definition unique_calendarsb (rows : list UserCalendar.t) : bool :=
  bool_decide (unique_calendars rows).

Definition owned_by (uid : string) (r : UserCalendar.t) : bool :=
  String.eqb (UserCalendar.user_id r) uid.

(** ** The world outside a handler *)

Module User.
Record metadata := { full_name : option string; avatar_url : option string }.
Record t := {
  id : string;
  email : option string;
  user_metadata : option metadata;
}.
End User.

(** Result of [supabaseClient.auth.getUser(token)]. *)
Record AuthResult := {
  auth_user : option User.t;
  auth_error : option string;
}.

(** What [await response.json()] and the reading of its [items] give.
    [Unreadable message]: an error with that message is thrown, because the
    body is not JSON, because it is JSON but no object, or because an item
    lacks what the handler dereferences (an event without [start] or [end]).
    [Readable items]: the body is an object whose [items] property is absent
    ([None]) or a list of well-formed items. *)
Inductive JsonBody (A : Type) : Type :=
  | Unreadable (message : string)
  | Readable (items : option (list A)).
Arguments Unreadable {A} message.
Arguments Readable {A} items.

(** A provider HTTP response: status, [text()], and [json()]. *)
Record HttpResponse (A : Type) := {
  http_status : nat;
  http_text : string;
  http_json : JsonBody A;
}.
Arguments http_status {A} _.
Arguments http_text {A} _.
Arguments http_json {A} _.

(** [response.ok]: a status in the range 200-299. *)
Definition http_ok {A} (r : HttpResponse A) : bool :=
  (200 <=? http_status r)%nat && (http_status r <=? 299)%nat.

(** The request sent to the provider's events endpoint: the text handed to
    [new URL(...)], the search parameters set on it, and the bearer of the
    Authorization header.  [timeMin] and [timeMax] are the instants
    (milliseconds since the epoch) that the handler renders with
    [toISOString]. *)
Record EventsRequest := {
  url : string;
  timeMin : Z;
  timeMax : Z;
  singleEvents : string;
  orderBy : string;
  maxResults : string;
  bearer : string;
}.

Inductive StorageOp : Type :=
  | SelectSettings
  | DeleteCalendars
  | InsertCalendars
  | UpsertSettings
  | UpsertProfile.

(** The in-memory session of a client of the hosted backend. *)
Record ClientSession := {
  provider_token : option string;
}.

(** A client of the hosted backend, as far as the handlers use its state:
    the session it holds. *)
Record SupabaseClient := {
  client_session : option ClientSession;
}.

(** [createClient(url, serviceRoleKey, { auth: { persistSession: false } })]:
    the client is new, nothing is restored from storage and nobody has
    signed in on it, so it holds no session.  [auth.getUser(jwt)] with an
    explicit token asks the identity provider about that token and leaves
    the client as it is. *)
Definition createClient : SupabaseClient :=
  {| client_session := None |}.

(** Everything a handler reads from outside: the clock, the runtime's date
    parser ([None] is an invalid date), the identity provider, the calendar
    provider, and the storage failures (network, policy) of the store. *)
Record Env := {
  Date_now : Z;
  Date_parse : string -> option Z;
  auth_getUser : string -> AuthResult;
  google_calendarList : string -> HttpResponse GoogleCalendar.t;
  google_events : EventsRequest -> HttpResponse GoogleEvent.t;
  storage_error : StorageOp -> option string;
}.

(** What a handler does to the outside, in order. *)
Inductive Effect : Type :=
  | AuthGetUser (token : string)
  | AuthGetSession
  | GoogleCalendarList (bearer : string)
  | GoogleEvents (req : EventsRequest)
  | DbSelectSettings (uid : string)
  | DbDeleteCalendars (uid : string)
  | DbInsertCalendars (rows : list UserCalendar.t)
  | DbUpsertSettings (uid : string) (token : string)
  | DbUpsertProfile (uid : string) (row : Profile.t).

Definition is_provider_call (e : Effect) : bool :=
  match e with
  | GoogleCalendarList _ | GoogleEvents _ => true
  | _ => false
  end.

Record World := {
  db : Database;
  trace : list Effect;
}.

Definition log (e : Effect) (w : World) : World :=
  {| db := db w; trace := (trace w ++ [e])%list |}.

Definition set_db (d : Database) (w : World) : World :=
  {| db := d; trace := trace w |}.

(** ** The handler monad: environment, world, and thrown errors *)

Inductive Completion (A : Type) : Type :=
  | Normal (a : A)
  | Thrown (message : string).
Arguments Normal {A} a.
Arguments Thrown {A} message.

Definition Async (A : Type) : Type := Env -> World -> Completion A * World.

Definition ret {A} (a : A) : Async A := fun _ w => (Normal a, w).

Definition bind {A B} (m : Async A) (k : A -> Async B) : Async B :=
  fun env w =>
    match m env w with
    | (Normal a, w') => k a env w'
    | (Thrown msg, w') => (Thrown msg, w')
    end.

(** [throw new Error(message)] *)
Definition throw {A} (message : string) : Async A := fun _ w => (Thrown message, w).

(** [try { m } catch (error) { h error.message }] *)
Definition try_catch {A} (m : Async A) (h : string -> Async A) : Async A :=
  fun env w =>
    match m env w with
    | (Normal a, w') => (Normal a, w')
    | (Thrown msg, w') => h msg env w'
    end.

Definition ask {A} (f : Env -> A) : Async A := fun env w => (Normal (f env), w).

Definition perform (e : Effect) : Async unit := fun _ w => (Normal tt, log e w).

Declare Scope async_scope.
Delimit Scope async_scope with async.
Notation "'let!' x ':=' m 'in' k" := (bind m (fun x => k))
  (at level 10, x name, m at level 100, k at level 200) : async_scope.
Notation "'do!' m 'in' k" := (bind m (fun _ => k))
  (at level 10, m at level 100, k at level 200) : async_scope.
Local Open Scope async_scope.

(** *** Remote calls *)

Definition getUser (token : string) : Async AuthResult :=
  do! perform (AuthGetUser token) in
  ask (fun env => auth_getUser env token).

(** [session.data.session?.provider_token] of
    [await supabaseClient.auth.getSession()]: the session is the one the
    client holds. *)
Definition getSession_provider_token (supabaseClient : SupabaseClient)
  : Async (option string) :=
  do! perform AuthGetSession in
  ret (client_session supabaseClient ≫= provider_token).

Definition fetch_calendarList (token : string) : Async (HttpResponse GoogleCalendar.t) :=
  do! perform (GoogleCalendarList token) in
  ask (fun env => google_calendarList env token).

Definition fetch_events (req : EventsRequest) : Async (HttpResponse GoogleEvent.t) :=
  do! perform (GoogleEvents req) in
  ask (fun env => google_events env req).

(** *** Storage calls

    Each call returns the [error] of the store's answer ([None] when the call
    succeeded).  A failed call leaves the tables as they were. *)

Definition with_calendars (rows : list UserCalendar.t) (d : Database) : Database :=
  {| user_settings := user_settings d; user_calendars := rows; profiles := profiles d |}.

Definition with_settings (m : gmap string UserSettings.t) (d : Database) : Database :=
  {| user_settings := m; user_calendars := user_calendars d; profiles := profiles d |}.

Definition with_profiles (m : gmap string Profile.t) (d : Database) : Database :=
  {| user_settings := user_settings d; user_calendars := user_calendars d; profiles := m |}.

(** [.from('user_settings').select('*').eq('user_id', uid).single()]:
    the pair of [data] and [error]. *)
Definition select_settings_single (uid : string)
  : Async (option UserSettings.t * option string) :=
  fun env w =>
    let w' := log (DbSelectSettings uid) w in
    match storage_error env SelectSettings with
    | Some e => (Normal (None, Some e), w')
    | None =>
        match user_settings (db w) !! uid with
        | Some s => (Normal (Some s, None), w')
        | None =>
            (Normal (None, Some "JSON object requested, multiple (or no) rows returned"), w')
        end
    end.

(** [.from('user_calendars').delete().eq('user_id', uid)] *)
Definition delete_calendars (uid : string) : Async (option string) :=
  fun env w =>
    let w' := log (DbDeleteCalendars uid) w in
    match storage_error env DeleteCalendars with
    | Some e => (Normal (Some e), w')
    | None =>
        let rest := List.filter (fun r => negb (owned_by uid r)) (user_calendars (db w)) in
        (Normal None, set_db (with_calendars rest (db w)) w')
    end.

(** [.from('user_calendars').insert(rows)]: one statement, refused as a
    whole when it would break UNIQUE(user_id, calendar_id). *)
Definition insert_calendars (rows : list UserCalendar.t) : Async (option string) :=
  fun env w =>
    let w' := log (DbInsertCalendars rows) w in
    match storage_error env InsertCalendars with
    | Some e => (Normal (Some e), w')
    | None =>
        let rows' := (user_calendars (db w) ++ rows)%list in
        if unique_calendarsb rows'
        then (Normal None, set_db (with_calendars rows' (db w)) w')
        else (Normal (Some "duplicate key value violates unique constraint"), w')
    end.

(** [.from('user_settings').upsert({user_id, google_access_token}, {onConflict: 'user_id'})]:
    the token column of the caller's row is set; a missing row is created
    with the column defaults. *)
Definition upsert_settings_token (uid token : string) : Async (option string) :=
  fun env w =>
    let w' := log (DbUpsertSettings uid token) w in
    match storage_error env UpsertSettings with
    | Some e => (Normal (Some e), w')
    | None =>
        let old := default UserSettings.default (user_settings (db w) !! uid) in
        let m := <[uid := UserSettings.with_token token old]> (user_settings (db w)) in
        (Normal None, set_db (with_settings m (db w)) w')
    end.

(** Columns left [undefined] in an upsert payload keep their stored value. *)
Definition merge_profile (old new : Profile.t) : Profile.t :=
  {| Profile.email := from_option Some (Profile.email old) (Profile.email new);
     Profile.display_name :=
       from_option Some (Profile.display_name old) (Profile.display_name new);
     Profile.avatar_url :=
       from_option Some (Profile.avatar_url old) (Profile.avatar_url new) |}.

(** [.from('profiles').upsert(row, {onConflict: 'user_id'})] *)
Definition upsert_profile (uid : string) (row : Profile.t) : Async (option string) :=
  fun env w =>
    let w' := log (DbUpsertProfile uid row) w in
    match storage_error env UpsertProfile with
    | Some e => (Normal (Some e), w')
    | None =>
        let stored :=
          match profiles (db w) !! uid with
          | Some old => merge_profile old row
          | None => row
          end in
        (Normal None, set_db (with_profiles (<[uid := stored]> (profiles (db w))) (db w)) w')
    end.

(** ** HTTP requests and responses of the two functions *)

Record Request := {
  method : string;
  authorization : option string;   (* req.headers.get('Authorization') *)
}.

Record Response := {
  status : nat;
  headers : list (string * string);
  body : option JSON;
}.

Definition corsHeaders : list (string * string) :=
  [ ("Access-Control-Allow-Origin", "*");
    ("Access-Control-Allow-Headers", "authorization, x-client-info, apikey, content-type") ].

Definition json_headers : list (string * string) :=
  (corsHeaders ++ [ ("Content-Type", "application/json") ])%list.

(** [new Response(null, { headers: corsHeaders })] *)
Definition preflight_response : Response :=
  {| status := 200; headers := corsHeaders; body := None |}.

(** The response built in the [catch] block of both functions. *)
Definition error_response (message : string) : Response :=
  {| status := 500;
     headers := json_headers;
     body := Some (JObject [ ("error", JString message); ("success", JBool false) ]) |}.

Definition ok_response (j : JSON) : Response :=
  {| status := 200; headers := json_headers; body := Some j |}.

(** ** supabase/functions/fetch-events/index.ts *)

Module FetchEvents.
Import GoogleEvent.

(** The filter callback: [event.start.dateTime && event.end.dateTime]. *)
Definition has_times (event : GoogleEvent.t) : bool :=
  truthy (EventTime.dateTime (start event)) && truthy (EventTime.dateTime (end_ event)).

(** The map callback. *)
Definition normalize (event : GoogleEvent.t) : Event.t :=
  {| Event.id := id event;
     Event.title := js_or_str (summary event) "Untitled Event";
     Event.description := js_or_str (description event) "";
     Event.startTime := EventTime.dateTime (start event);
     Event.endTime := EventTime.dateTime (end_ event);
     Event.location := js_or_str (location event) "";
     Event.meetingLink := js_or_str (js_or (hangoutLink event) (htmlLink event)) "" |}.

Definition filteredEvents (events : list GoogleEvent.t) : list Event.t :=
  map normalize (List.filter has_times events).

(** [new Date(event.startTime) > now]; an invalid date compares false. *)
Definition starts_after (parse : string -> option Z) (now : Z) (event : Event.t) : bool :=
  match Event.startTime event with
  | Some s =>
      match parse s with
      | Some eventStart => now <? eventStart
      | None => false
      end
  | None => false
  end.

(** [filteredEvents.find(...)] *)
Definition nextEvent (parse : string -> option Z) (now : Z) (events : list Event.t)
  : option Event.t :=
  List.find (starts_after parse now) events.

Definition success_body (events : list Event.t) (next : option Event.t) : JSON :=
  JObject [ ("success", JBool true);
            ("events", JArray (map Event.to_json events));
            ("nextEvent", match next with
                          | Some e => Event.to_json e
                          | None => JNull
                          end);
            ("totalCount", JNumber (Z.of_nat (length events))) ].

(** The id is pasted into the template literal as it is stored: it is not
    percent-encoded, so a [#], [?] or [/] in it ends up as URL syntax. *)
Definition eventsUrl (selected_calendar_id : string) : string :=
  "https://www.googleapis.com/calendar/v3/calendars/"
  ++ selected_calendar_id ++ "/events".

Definition events_request (settings : UserSettings.t) (now : Z) : EventsRequest :=
  {| url := eventsUrl (default "" (UserSettings.selected_calendar_id settings));
     timeMin := now;
     timeMax := now + 24 * 60 * 60 * 1000;
     singleEvents := "true";
     orderBy := "startTime";
     maxResults := "50";
     bearer := default "" (UserSettings.google_access_token settings) |}.

(** The body of the [try] block. *)
Definition handler (req : Request) : Async Response :=
  if negb (truthy (authorization req))
  then throw "No authorization header provided"
  else
    let token := replace "Bearer " "" (default "" (authorization req)) in
    let! userData := getUser token in
    match auth_error userData with
    | Some message => throw ("Authentication error: " ++ message)
    | None =>
    match auth_user userData with
    | None => throw "User not authenticated"
    | Some user =>
    let! found := select_settings_single (User.id user) in
    match found with
    | (Some settings, None) =>
        if negb (UserSettings.service_enabled settings)
        then throw "Calert service is not enabled"
        else if negb (truthy (UserSettings.selected_calendar_id settings))
        then throw "No calendar selected"
        else if negb (truthy (UserSettings.google_access_token settings))
        then throw "No Google access token found. Please reconnect your Google account."
        else
          let! now := ask Date_now in
          let! eventsResponse := fetch_events (events_request settings now) in
          if negb (http_ok eventsResponse)
          then
            if (http_status eventsResponse =? 401)%nat
            then throw "Google access token expired. Please reconnect your Google account."
            else throw ("Google Calendar API error: "
                        ++ number_to_string (http_status eventsResponse)
                        ++ " - " ++ http_text eventsResponse)
          else
            match http_json eventsResponse with
            | Unreadable message => throw message
            | Readable items =>
                let events := default [] items in
                let filtered := filteredEvents events in
                let! parse := ask Date_parse in
                ret (ok_response (success_body filtered (nextEvent parse now filtered)))
            end
    | _ => throw "User settings not found. Please complete setup first."
    end
    end
    end.

(** The function served: the pre-flight answer, then [try]/[catch]. *)
Definition serve (req : Request) (env : Env) (w : World) : Response * World :=
  if String.eqb (method req) "OPTIONS"
  then (preflight_response, w)
  else
    match handler req env w with
    | (Normal response, w') => (response, w')
    | (Thrown message, w') => (error_response message, w')
    end.
End FetchEvents.

(** ** supabase/functions/sync-calendars/index.ts *)

Module SyncCalendars.
Import GoogleCalendar.

(** The map callback building [calendarInserts]. *)
Definition calendarInsert (user : User.t) (calendar : GoogleCalendar.t) : UserCalendar.t :=
  {| UserCalendar.user_id := User.id user;
     UserCalendar.calendar_id := id calendar;
     UserCalendar.calendar_name := summary calendar;
     UserCalendar.calendar_description := js_or (description calendar) None;
     UserCalendar.is_primary := js_or_false (primary calendar) |}.

Definition success_body (calendarInserts : list UserCalendar.t) : JSON :=
  JObject [ ("success", JBool true);
            ("calendars", JArray (map UserCalendar.to_json calendarInserts));
            ("message", JString ("Successfully synced "
                                 ++ number_to_string (length calendarInserts)
                                 ++ " calendars")) ].

(** The body of the [try] block after [createClient], as a function of the
    client.  The errors of the delete and of the settings upsert are logged
    and the handler goes on; the error of the insert is thrown. *)
Definition handler_with (supabaseClient : SupabaseClient) (req : Request)
  : Async Response :=
  if negb (truthy (authorization req))
  then throw "No authorization header provided"
  else
    let token := replace "Bearer " "" (default "" (authorization req)) in
    let! userData := getUser token in
    match auth_error userData with
    | Some message => throw ("Authentication error: " ++ message)
    | None =>
    match auth_user userData with
    | None => throw "User not authenticated"
    | Some user =>
    let! session_token := getSession_provider_token supabaseClient in
    if negb (truthy session_token)
    then throw "No Google access token found. Please reconnect your Google account."
    else
      let providerToken := default "" session_token in
      let! calendarResponse := fetch_calendarList providerToken in
      if negb (http_ok calendarResponse)
      then throw ("Google Calendar API error: "
                  ++ number_to_string (http_status calendarResponse)
                  ++ " - " ++ http_text calendarResponse)
      else
        match http_json calendarResponse with
        | Unreadable message => throw message
        | Readable items =>
            let calendars := default [] items in
            let! deleteError := delete_calendars (User.id user) in
            let calendarInserts := map (calendarInsert user) calendars in
            let! insertError :=
              (if (0 <? length calendarInserts)%nat
               then insert_calendars calendarInserts
               else ret None) in
            match insertError with
            | Some message => throw ("Error inserting calendars: " ++ message)
            | None =>
                let! settingsError :=
                  upsert_settings_token (User.id user) providerToken in
                ret (ok_response (success_body calendarInserts))
            end
        end
    end
    end.

(** The body of the [try] block: the handler makes its own client. *)
Definition handler (req : Request) : Async Response :=
  let supabaseClient := createClient in
  handler_with supabaseClient req.

(** The function with the client left open: pre-flight answer, then
    [try]/[catch]. *)
Definition serve_with (supabaseClient : SupabaseClient) (req : Request)
  (env : Env) (w : World) : Response * World :=
  if String.eqb (method req) "OPTIONS"
  then (preflight_response, w)
  else
    match handler_with supabaseClient req env w with
    | (Normal response, w') => (response, w')
    | (Thrown message, w') => (error_response message, w')
    end.

(** The function served. *)
Definition serve (req : Request) (env : Env) (w : World) : Response * World :=
  if String.eqb (method req) "OPTIONS"
  then (preflight_response, w)
  else
    match handler req env w with
    | (Normal response, w') => (response, w')
    | (Thrown message, w') => (error_response message, w')
    end.
End SyncCalendars.

(** ** The AuthProvider context of the frontend *)

Module AuthContext.

(** A session of the identity provider; [session.user] is its user. *)
Record Session := { session_user : User.t }.

(** The three state cells of the provider component. *)
Record State := {
  user : option User.t;
  session : option Session;
  loading : bool;
}.

Inductive Task : Type :=
  | CreateOrUpdateProfile (u : User.t).

(** A callback handed to [setTimeout(callback, delay)]. *)
Record Timer := { delay : nat; task : Task }.

(** [user.user_metadata?.full_name || user.email?.split('@')[0]] *)
Definition display_name (u : User.t) : option string :=
  js_or (User.user_metadata u ≫= User.full_name)
        (split_head "@" <$> User.email u).

(** The row handed to the upsert. *)
Definition profile_row (u : User.t) : Profile.t :=
  {| Profile.email := User.email u;
     Profile.display_name := display_name u;
     Profile.avatar_url := User.user_metadata u ≫= User.avatar_url |}.

(** [createOrUpdateProfile]: the error of the upsert, and anything thrown,
    only reaches the console. *)
Definition createOrUpdateProfile (u : User.t) : Async unit :=
  try_catch
    (let! error := upsert_profile (User.id u) (profile_row u) in ret tt)
    (fun _ => ret tt).

(** The callback given to [onAuthStateChange]: the new state and the timers
    it sets. *)
Definition onAuthStateChange (event : string) (s : option Session) (st : State)
  : State * list Timer :=
  let st' := {| session := s; user := session_user <$> s; loading := false |} in
  match s with
  | Some s' =>
      if String.eqb event "SIGNED_IN"
      then (st', [ {| delay := 0; task := CreateOrUpdateProfile (session_user s') |} ])
      else (st', [])
  | None => (st', [])
  end.

(** The continuation of [getSession().then(...)] on mount. *)
Definition onGetSession (s : option Session) (st : State) : State * list Timer :=
  let st' := {| session := s; user := session_user <$> s; loading := false |} in
  match s with
  | Some s' => (st', [ {| delay := 0; task := CreateOrUpdateProfile (session_user s') |} ])
  | None => (st', [])
  end.

Definition run_task (t : Task) : Async unit :=
  match t with
  | CreateOrUpdateProfile u => createOrUpdateProfile u
  end.

(** A later turn of the event loop runs the timers that are due, in order. *)
Fixpoint run_timers (ts : list Timer) : Async unit :=
  match ts with
  | [] => ret tt
  | t :: rest => do! run_task (task t) in run_timers rest
  end.
End AuthContext.

(** ** Date-time strings

    The provider sends RFC 3339 date-times ("2024-01-15T09:00:00Z",
    "2024-01-15T10:00:00+01:00"), which the runtime's [Date] parses to
    milliseconds since the epoch.  This parser reads that format with no
    fraction of a second or a fraction of exactly three digits, and answers
    [None] for anything else; it serves the sample data only, and the
    general results below hold for any [Date_parse]. *)

Module DateTime.

Definition digit (c : ascii) : option Z :=
  let n := Z.of_nat (nat_of_ascii c) in
  if (48 <=? n) && (n <=? 57) then Some (n - 48) else None.

(** Exactly [n] decimal digits. *)
Fixpoint number (n : nat) (acc : Z) (s : string) : option (Z * string) :=
  match n with
  | O => Some (acc, s)
  | S n' =>
      match s with
      | String c s' => d ← digit c; number n' (10 * acc + d) s'
      | EmptyString => None
      end
  end.

Definition expect (c : ascii) (s : string) : option string :=
  match s with
  | String c' s' => if Ascii.eqb c c' then Some s' else None
  | EmptyString => None
  end.

(** Days from 1970-01-01 to a date of the proleptic Gregorian calendar. *)
Definition days_from_civil (y m d : Z) : Z :=
  let y' := if m <=? 2 then y - 1 else y in
  let era := y' / 400 in
  let yoe := y' - era * 400 in
  let mp := if m <=? 2 then m + 9 else m - 3 in
  let doy := (153 * mp + 2) / 5 + d - 1 in
  let doe := yoe * 365 + yoe / 4 - yoe / 100 + doy in
  era * 146097 + doe - 719468.

(** An optional fraction of a second, in milliseconds. *)
Definition fraction (s : string) : option (Z * string) :=
  match s with
  | String "." s' => number 3 0 s'
  | _ => Some (0, s)
  end.

(** The zone designator, in minutes east of UTC. *)
Definition zone (s : string) : option Z :=
  match s with
  | "Z" => Some 0
  | String sign s' =>
      '(h, s1) ← number 2 0 s';
      s2 ← expect ":" s1;
      '(m, s3) ← number 2 0 s2;
      if negb (String.eqb s3 "") || (23 <? h) || (59 <? m) then None
      else if Ascii.eqb sign "+" then Some (h * 60 + m)
      else if Ascii.eqb sign "-" then Some (- (h * 60 + m))
      else None
  | EmptyString => None
  end.

Definition parse (s : string) : option Z :=
  '(y, s) ← number 4 0 s;
  s ← expect "-" s;
  '(mo, s) ← number 2 0 s;
  s ← expect "-" s;
  '(d, s) ← number 2 0 s;
  s ← expect "T" s;
  '(h, s) ← number 2 0 s;
  s ← expect ":" s;
  '(mi, s) ← number 2 0 s;
  s ← expect ":" s;
  '(sec, s) ← number 2 0 s;
  '(ms, s) ← fraction s;
  off ← zone s;
  if (mo <? 1) || (12 <? mo) || (d <? 1) || (31 <? d)
     || (23 <? h) || (59 <? mi) || (59 <? sec)
  then None
  else Some ((((days_from_civil y mo d * 24 + h) * 60 + mi - off) * 60 + sec) * 1000 + ms).
End DateTime.

(** ** Vocabulary of the properties *)


(** The [dateTime] is there and is not the empty string. *)
Definition has_nonempty_dateTime (t : EventTime.t) : Prop :=
  exists s, EventTime.dateTime t = Some s /\ s <> "".




(** The start instant of a provider event that has a [dateTime]. *)
Definition provider_start (parse : string -> option Z) (event : GoogleEvent.t)
  : option Z :=
  EventTime.dateTime (GoogleEvent.start event) ≫= parse.

(** The provider answered in the order the request asks for
    ([orderBy=startTime]): no event comes before one that starts earlier. *)
Definition provider_ordered (parse : string -> option Z) (events : list GoogleEvent.t)
  : Prop :=
  StronglySorted
    (fun a b => forall ta tb,
         provider_start parse a = Some ta -> provider_start parse b = Some tb -> ta <= tb)
    events.

(** The start instant of a normalized event, when its start time parses. *)
Definition start_instant (parse : string -> option Z) (e : Event.t) : option Z :=
  Event.startTime e ≫= parse.

(** [e] is an event of the list that starts strictly after [now], and no
    event of the list that starts strictly after [now] starts before it. *)
Definition earliest_after (parse : string -> option Z) (now : Z)
    (events : list Event.t) (e : Event.t) : Prop :=
  In e events /\
  exists t, start_instant parse e = Some t /\ now < t /\
    forall e' t', In e' events -> start_instant parse e' = Some t' -> now < t' -> t <= t'.

(** No event of the list starts strictly after [now]. *)
Definition none_after (parse : string -> option Z) (now : Z) (events : list Event.t) : Prop :=
  forall e t, In e events -> start_instant parse e = Some t -> t <= now.

(** The next-event rule as the specification words it. *)
Definition next_is_earliest (parse : string -> option Z) (now : Z)
    (events : list Event.t) (next : option Event.t) : Prop :=
  match next with
  | Some e => earliest_after parse now events e
  | None => none_after parse now events
  end.

(** [e] is the first event, in list order, that starts strictly after [now]. *)
Definition first_after (parse : string -> option Z) (now : Z)
    (events : list Event.t) (e : Event.t) : Prop :=
  exists before rest,
    events = (before ++ e :: rest)%list /\
    FetchEvents.starts_after parse now e = true /\
    forall e', In e' before -> FetchEvents.starts_after parse now e' = false.

(** The list is in the order asked from the provider ([orderBy=startTime]). *)
Definition ordered_by_start (parse : string -> option Z) (events : list Event.t) : Prop :=
  StronglySorted
    (fun a b => forall ta tb,
         start_instant parse a = Some ta -> start_instant parse b = Some tb -> ta <= tb)
    events.

(** A success response: a JSON body whose [success] property is [true]. *)
Definition is_success (r : Response) : Prop :=
  exists j, body r = Some j /\ field "success" j = Some (JBool true).

(** The error envelope [{success: false, error: message}]. *)
Definition is_error_envelope (message : string) (j : JSON) : Prop :=
  field "success" j = Some (JBool false) /\
  field "error" j = Some (JString message) /\
  exists fields, j = JObject fields /\ length fields = 2%nat.

(** The effects a run adds to the trace of the world it started in. *)
Definition performed (w w' : World) (effects : list Effect) : Prop :=
  trace w' = (trace w ++ effects)%list.

Definition initial (d : Database) : World := {| db := d; trace := [] |}.

(** The normalization rule of the specification read to the letter: a
    property is used whenever it is there. *)
Definition title_as_specified (event : GoogleEvent.t) : string :=
  default "Untitled Event" (GoogleEvent.summary event).

Definition meetingLink_as_specified (event : GoogleEvent.t) : string :=
  match GoogleEvent.hangoutLink event with
  | Some link => link
  | None => default "" (GoogleEvent.htmlLink event)
  end.

(** The display name of the specification read to the letter. *)
Definition display_name_as_specified (u : User.t) : option string :=
  match User.user_metadata u ≫= User.full_name with
  | Some name => Some name
  | None => split_head "@" <$> User.email u
  end.

(** The authentication both functions start with: a bearer credential that
    the identity provider resolves to [user]. *)
Definition authenticated (req : Request) (env : Env) (user : User.t) : Prop :=
  exists header,
    authorization req = Some header /\ header <> "" /\
    auth_getUser env (replace "Bearer " "" header)
    = {| auth_user := Some user; auth_error := None |}.

(** The settings row the store hands to the fetch function for a user. *)
Definition settings_read (env : Env) (w : World) (uid : string) : option UserSettings.t :=
  match storage_error env SelectSettings with
  | Some _ => None
  | None => user_settings (db w) !! uid
  end.

(** The run from [w] to [w'] made no call to the calendar provider. *)
Definition no_provider_call (w w' : World) : Prop :=
  exists effects,
    performed w w' effects /\ Forall (fun e => is_provider_call e = false) effects.

(** The four precondition failures of the fetch function. *)
Definition settings_not_found : string :=
  "User settings not found. Please complete setup first.".
Definition service_not_enabled : string := "Calert service is not enabled".
Definition no_calendar_selected : string := "No calendar selected".
Definition no_access_token : string :=
  "No Google access token found. Please reconnect your Google account.".
Definition token_expired : string :=
  "Google access token expired. Please reconnect your Google account.".

(** The rows of a user, and the rows of everybody else. *)
Definition rows_of (uid : string) (rows : list UserCalendar.t) : list UserCalendar.t :=
  List.filter (owned_by uid) rows.

Definition rows_of_others (uid : string) (rows : list UserCalendar.t)
  : list UserCalendar.t :=
  List.filter (fun r => negb (owned_by uid r)) rows.

(** The kind of a call, whatever its arguments. *)
Definition effect_kind (e : Effect) : nat :=
  match e with
  | AuthGetUser _ => 0
  | AuthGetSession => 1
  | GoogleCalendarList _ => 2
  | GoogleEvents _ => 3
  | DbSelectSettings _ => 4
  | DbDeleteCalendars _ => 5
  | DbInsertCalendars _ => 6
  | DbUpsertSettings _ _ => 7
  | DbUpsertProfile _ _ => 8
  end%nat.

(** No call was repeated between [w] and [w']. *)
Definition no_retry (w w' : World) : Prop :=
  exists effects, performed w w' effects /\ NoDup (map effect_kind effects).

(** Nothing fails in a fetch request: the caller is authenticated, the four
    preconditions hold, the provider answers with a success status, and the
    body of its answer can be read. *)
Definition fetch_ready (req : Request) (env : Env) (w : World) : Prop :=
  exists user settings,
    authenticated req env user /\
    settings_read env w (User.id user) = Some settings /\
    UserSettings.service_enabled settings = true /\
    truthy (UserSettings.selected_calendar_id settings) = true /\
    truthy (UserSettings.google_access_token settings) = true /\
    let response :=
      google_events env (FetchEvents.events_request settings (Date_now env)) in
    http_ok response = true /\ exists items, http_json response = Readable items.

(** The calendar rows left by the delete of a sync request. *)
Definition calendars_after_delete (env : Env) (uid : string) (d : Database)
  : list UserCalendar.t :=
  match storage_error env DeleteCalendars with
  | Some _ => user_calendars d
  | None => rows_of_others uid (user_calendars d)
  end.

(** ** Sample data *)

Module Sample.

Definition timed (id : string) (title : option string) (from to : string) : GoogleEvent.t :=
  {| GoogleEvent.id := id;
     GoogleEvent.summary := title;
     GoogleEvent.description := None;
     GoogleEvent.start := {| EventTime.dateTime := Some from; EventTime.date := None |};
     GoogleEvent.end_ := {| EventTime.dateTime := Some to; EventTime.date := None |};
     GoogleEvent.location := None;
     GoogleEvent.htmlLink := Some "https://calendar.example/e";
     GoogleEvent.hangoutLink := None |}.

Definition ev0900 := timed "e09" (Some "Stand-up") "2024-01-15T09:00:00Z" "2024-01-15T09:15:00Z".
Definition ev1000 := timed "e10" (Some "Review") "2024-01-15T10:00:00Z" "2024-01-15T10:30:00Z".

(** An all-day event on the day of the request. *)
Definition all_day : GoogleEvent.t :=
  {| GoogleEvent.id := "e-day";
     GoogleEvent.summary := Some "Offsite";
     GoogleEvent.description := None;
     GoogleEvent.start := {| EventTime.dateTime := None; EventTime.date := Some "2024-01-15" |};
     GoogleEvent.end_ := {| EventTime.dateTime := None; EventTime.date := Some "2024-01-16" |};
     GoogleEvent.location := None;
     GoogleEvent.htmlLink := None;
     GoogleEvent.hangoutLink := None |}.

(** A timed event whose summary and hangout link are empty strings. *)
Definition blank : GoogleEvent.t :=
  {| GoogleEvent.id := "e-blank";
     GoogleEvent.summary := Some "";
     GoogleEvent.description := None;
     GoogleEvent.start :=
       {| EventTime.dateTime := Some "2024-01-15T10:00:00Z"; EventTime.date := None |};
     GoogleEvent.end_ :=
       {| EventTime.dateTime := Some "2024-01-15T10:30:00Z"; EventTime.date := None |};
     GoogleEvent.location := None;
     GoogleEvent.htmlLink := Some "https://calendar.example/e";
     GoogleEvent.hangoutLink := Some "" |}.


(** 2024-01-15T09:30:00Z *)
Definition now0930 : Z := 1705311000000.

Definition alice : User.t :=
  {| User.id := "user-alice";
     User.email := Some "alice@example.com";
     User.user_metadata :=
       Some {| User.full_name := Some "Alice Liddell"; User.avatar_url := None |} |}.

(** A user whose provider metadata has an empty full name. *)
Definition ann : User.t :=
  {| User.id := "user-ann";
     User.email := Some "ann@example.com";
     User.user_metadata := Some {| User.full_name := Some ""; User.avatar_url := None |} |}.

Definition work : GoogleCalendar.t :=
  {| GoogleCalendar.id := "work@example.com";
     GoogleCalendar.summary := "Work";
     GoogleCalendar.description := None;
     GoogleCalendar.primary := Some true |}.

Definition family : GoogleCalendar.t :=
  {| GoogleCalendar.id := "family@example.com";
     GoogleCalendar.summary := "Family";
     GoogleCalendar.description := Some "Shared";
     GoogleCalendar.primary := None |}.

(** A row of an earlier sync, of a calendar the provider no longer lists. *)
Definition stale : UserCalendar.t :=
  {| UserCalendar.user_id := "user-alice";
     UserCalendar.calendar_id := "old@example.com";
     UserCalendar.calendar_name := "Old";
     UserCalendar.calendar_description := None;
     UserCalendar.is_primary := false |}.

Definition settings_on : UserSettings.t :=
  {| UserSettings.selected_calendar_id := Some "work@example.com";
     UserSettings.service_enabled := true;
     UserSettings.google_access_token := Some "ya29.token";
     UserSettings.google_refresh_token := None;
     UserSettings.google_token_expires_at := None |}.

(** A valid token and calendar, with the service switched off. *)
Definition settings_off : UserSettings.t :=
  {| UserSettings.selected_calendar_id := Some "work@example.com";
     UserSettings.service_enabled := false;
     UserSettings.google_access_token := Some "ya29.token";
     UserSettings.google_refresh_token := None;
     UserSettings.google_token_expires_at := None |}.

Definition database (settings : option UserSettings.t) (rows : list UserCalendar.t)
  : Database :=
  {| user_settings :=
       match settings with
       | Some s => {[ "user-alice" := s ]}
       | None => ∅
       end;
     user_calendars := rows;
     profiles := ∅ |}.

(** An answer whose body reads as an object with these [items]. *)
Definition respond {A} (code : nat) (text : string) (items : option (list A))
  : HttpResponse A :=
  {| http_status := code; http_text := text; http_json := Readable items |}.

(** An answer with a success status whose body is a page of markup. *)
Definition not_json {A} : HttpResponse A :=
  {| http_status := 200;
     http_text := "<html>Service unavailable</html>";
     http_json := Unreadable "Unexpected token < in JSON at position 0" |}.

Definition no_error : StorageOp -> option string := fun _ => None.

(** The store refuses one operation and accepts the others. *)
Definition failing (op : StorageOp) : StorageOp -> option string :=
  fun op' =>
    match op, op' with
    | SelectSettings, SelectSettings
    | DeleteCalendars, DeleteCalendars
    | InsertCalendars, InsertCalendars
    | UpsertSettings, UpsertSettings
    | UpsertProfile, UpsertProfile => Some "connection refused"
    | _, _ => None
    end.

(** An environment in which the bearer "jwt-alice" identifies [alice]. *)
Definition env (now : Z) (calendars : HttpResponse GoogleCalendar.t)
    (events : HttpResponse GoogleEvent.t) (errors : StorageOp -> option string) : Env :=
  {| Date_now := now;
     Date_parse := DateTime.parse;
     auth_getUser := fun token =>
       if String.eqb token "jwt-alice"
       then {| auth_user := Some alice; auth_error := None |}
       else {| auth_user := None; auth_error := Some "invalid JWT" |};
     google_calendarList := fun _ => calendars;
     google_events := fun _ => events;
     storage_error := errors |}.

Definition request : Request :=
  {| method := "POST"; authorization := Some "Bearer jwt-alice" |}.
(** The provider lists two calendars and three events, one of them all-day. *)
Definition calendars_ok : HttpResponse GoogleCalendar.t :=
  respond 200 "" (Some [work; family]).

Definition events_ok : HttpResponse GoogleEvent.t :=
  respond 200 "" (Some [ev0900; all_day; ev1000]).

Definition env_ok : Env := env now0930 calendars_ok events_ok no_error.

(** The store refuses the read of the settings. *)
Definition env_store_down : Env :=
  env now0930 calendars_ok events_ok (failing SelectSettings).

(** The provider's answer has a success status and no JSON body. *)
Definition env_not_json : Env := env now0930 calendars_ok not_json no_error.


Definition env_401 : Env :=
  env now0930 calendars_ok (respond 401 "Invalid Credentials" None) no_error.

Definition env_503 : Env :=
  env now0930 calendars_ok (respond 503 "Backend Error" None) no_error.

(** A client on which a session with a provider token has been set. *)
Definition signed_client : SupabaseClient :=
  {| client_session := Some {| provider_token := Some "ya29.token" |} |}.

Definition world_on : World := initial (database (Some settings_on) [stale]).
Definition world_off : World := initial (database (Some settings_off) [stale]).
Definition world_new : World := initial (database None [stale]).

Definition signed_in : AuthContext.Session := {| AuthContext.session_user := alice |}.

Definition signed_out : AuthContext.State :=
  {| AuthContext.user := None; AuthContext.session := None; AuthContext.loading := true |}.
End Sample.

(** ** The dashboard of the frontend *)

(** What [supabase.functions.invoke] answers for a response whose status is
    not in the range 200-299. *)
Definition non_2xx_message : string := "Edge Function returned a non-2xx status code".

Module Dashboard.

(** [interface UserSettings] of the dashboard: the three columns it reads. *)
Record Settings := {
  selected_calendar_id : option string;
  service_enabled : bool;
  google_access_token : option string;
}.

(** The object used when the user has no settings row. *)
Definition default_settings : Settings :=
  {| selected_calendar_id := None; service_enabled := false; google_access_token := None |}.

Definition of_row (row : UserSettings.t) : Settings :=
  {| selected_calendar_id := UserSettings.selected_calendar_id row;
     service_enabled := UserSettings.service_enabled row;
     google_access_token := UserSettings.google_access_token row |}.

(** [interface CalendarItem] *)
Record CalendarItem := {
  id : string;
  summary : string;
  description : option string;
  primary : bool;
}.

(** The map callback of [loadUserData]. *)
Definition calendarItem (cal : UserCalendar.t) : CalendarItem :=
  {| id := UserCalendar.calendar_id cal;
     summary := UserCalendar.calendar_name cal;
     description := UserCalendar.calendar_description cal;
     primary := UserCalendar.is_primary cal |}.

(** A call of [toast]; [destructive] is [variant: "destructive"]. *)
Record Toast := {
  title : string;
  toast_description : string;
  destructive : bool;
}.

(** An error object of the browser-side client. *)
Record ClientError := { code : string; message : string }.

Inductive ClientOp : Type :=
  | LoadSettings
  | LoadCalendars
  | SaveSelection
  | SaveService
  | InvokeSync
  | SignInWithOAuth.

(** What the browser-side client meets: the errors of its calls, the access
    token of the session it sends to a function, and the environment the
    function runs in. *)
Record Client := {
  client_error : ClientOp -> option ClientError;
  access_token : string;
  functions_env : Env;
}.

(** The state cells of the component, and the toasts it has shown. *)
Record State := {
  settings : option Settings;
  calendars : list CalendarItem;
  loading : bool;
  updating : bool;
  showDemo : bool;
  toasts : list Toast;
}.

Definition initial : State :=
  {| settings := None; calendars := []; loading := true; updating := false;
     showDemo := false; toasts := [] |}.

Definition setSettings (v : option Settings) (st : State) : State :=
  {| settings := v; calendars := calendars st; loading := loading st;
     updating := updating st; showDemo := showDemo st; toasts := toasts st |}.

Definition setCalendars (v : list CalendarItem) (st : State) : State :=
  {| settings := settings st; calendars := v; loading := loading st;
     updating := updating st; showDemo := showDemo st; toasts := toasts st |}.

Definition setLoading (v : bool) (st : State) : State :=
  {| settings := settings st; calendars := calendars st; loading := v;
     updating := updating st; showDemo := showDemo st; toasts := toasts st |}.

Definition setUpdating (v : bool) (st : State) : State :=
  {| settings := settings st; calendars := calendars st; loading := loading st;
     updating := v; showDemo := showDemo st; toasts := toasts st |}.

Definition toast (t : Toast) (st : State) : State :=
  {| settings := settings st; calendars := calendars st; loading := loading st;
     updating := updating st; showDemo := showDemo st; toasts := (toasts st ++ [t])%list |}.

Definition error_toast (heading : string) (e : ClientError) : Toast :=
  {| title := heading; toast_description := message e; destructive := true |}.

(** [loadUserData]: the settings row (or the defaults), then the calendar
    rows of the user.  The error code PGRST116 of the settings read is let
    through; any other error ends in the [catch] block. *)
Definition loadUserData (user : option User.t) (c : Client) (d : Database) (st : State)
  : State :=
  match user with
  | None => st
  | Some u =>
      let settingsError := client_error c LoadSettings in
      let settingsData :=
        match settingsError with
        | Some _ => None
        | None => of_row <$> user_settings d !! User.id u
        end in
      let failed (e : ClientError) (s : State) :=
        setLoading false (toast (error_toast "Error loading data" e) s) in
      let load_calendars (s : State) :=
        match client_error c LoadCalendars with
        | Some e => failed e s
        | None =>
            setLoading false
              (setCalendars (map calendarItem (rows_of (User.id u) (user_calendars d))) s)
        end in
      let loaded := setSettings (Some (default default_settings settingsData)) st in
      match settingsError with
      | Some e =>
          if String.eqb (code e) "PGRST116" then load_calendars loaded else failed e st
      | None => load_calendars loaded
      end
  end.

(** [connectGoogleCalendar]: on success the browser leaves for the provider
    and the updating flag stays set. *)
Definition connectGoogleCalendar (c : Client) (st : State) : State :=
  let st1 := setUpdating true st in
  match client_error c SignInWithOAuth with
  | Some e =>
      setUpdating false (toast (error_toast "Failed to connect Google Calendar" e) st1)
  | None => st1
  end.

(** [supabase.functions.invoke('sync-calendars')]: a POST with the session's
    access token as bearer; [data] is the body of a 2xx response. *)
Definition invoke_sync (c : Client) (w : World)
  : option JSON * option ClientError * World :=
  match client_error c InvokeSync with
  | Some e => (None, Some e, w)
  | None =>
      let request :=
        {| method := "POST"; authorization := Some ("Bearer " ++ access_token c) |} in
      let (r, w') := SyncCalendars.serve request (functions_env c) w in
      if (200 <=? status r)%nat && (status r <=? 299)%nat
      then (body r, None, w')
      else (None, Some {| code := ""; message := non_2xx_message |}, w')
  end.

(** The error thrown by [data.calendars.length] on a body without a
    [calendars] array. *)
Definition no_calendars_error : ClientError :=
  {| code := ""; message := "Cannot read properties of undefined (reading 'length')" |}.

(** [syncCalendars] *)
Definition syncCalendars (user : option User.t) (c : Client) (st : State) (w : World)
  : State * World :=
  let st1 := setUpdating true st in
  let '(data, error, w') := invoke_sync c w in
  let failed (e : ClientError) := toast (error_toast "Failed to sync calendars" e) st1 in
  let st2 :=
    match error with
    | Some e => failed e
    | None =>
        match data ≫= field "calendars" with
        | Some (JArray items) =>
            loadUserData user c (db w')
              (toast {| title := "Calendars synced successfully";
                        toast_description :=
                          "Found " ++ number_to_string (length items) ++ " calendars";
                        destructive := false |} st1)
        | _ => failed no_calendars_error
        end
    end in
  (setUpdating false st2, w').

(** The upsert of the two preference columns on [user_settings]; a column
    left [undefined] in the payload ([None]) keeps its stored value. *)
Definition upsert_preferences (uid : string) (selected : option (option string))
    (enabled : bool) (d : Database) : Database :=
  let old := default UserSettings.default (user_settings d !! uid) in
  let row :=
    {| UserSettings.selected_calendar_id :=
         default (UserSettings.selected_calendar_id old) selected;
       UserSettings.service_enabled := enabled;
       UserSettings.google_access_token := UserSettings.google_access_token old;
       UserSettings.google_refresh_token := UserSettings.google_refresh_token old;
       UserSettings.google_token_expires_at := UserSettings.google_token_expires_at old |} in
  with_settings (<[uid := row]> (user_settings d)) d.

Definition select_calendar (calendarId : string) (s : Settings) : Settings :=
  {| selected_calendar_id := Some calendarId;
     service_enabled := service_enabled s;
     google_access_token := google_access_token s |}.

Definition set_enabled (enabled : bool) (s : Settings) : Settings :=
  {| selected_calendar_id := selected_calendar_id s;
     service_enabled := enabled;
     google_access_token := google_access_token s |}.

(** [updateCalendarSelection] *)
Definition updateCalendarSelection (calendarId : string) (user : option User.t)
    (c : Client) (st : State) (d : Database) : State * Database :=
  match user with
  | None => (st, d)
  | Some u =>
      let st1 := setUpdating true st in
      match client_error c SaveSelection with
      | Some e =>
          (setUpdating false
             (toast (error_toast "Failed to update selection" e) st1), d)
      | None =>
          let enabled := from_option service_enabled false (settings st) in
          (setUpdating false
             (toast {| title := "Calendar selection updated";
                       toast_description := "Your preferred calendar has been saved.";
                       destructive := false |}
                (setSettings (select_calendar calendarId <$> settings st1) st1)),
           upsert_preferences (User.id u) (Some (Some calendarId)) enabled d)
      end
  end.

(** [toggleService] *)
Definition toggleService (enabled : bool) (user : option User.t)
    (c : Client) (st : State) (d : Database) : State * Database :=
  match user with
  | None => (st, d)
  | Some u =>
      let st1 := setUpdating true st in
      match client_error c SaveService with
      | Some e =>
          (setUpdating false
             (toast (error_toast "Failed to update service" e) st1), d)
      | None =>
          (setUpdating false
             (toast {| title := if enabled then "Calert enabled" else "Calert disabled";
                       toast_description :=
                         if enabled
                         then "You'll now receive assertive calendar alerts."
                         else "Calendar alerts have been disabled.";
                       destructive := false |}
                (setSettings (set_enabled enabled <$> settings st1) st1)),
           upsert_preferences (User.id u) (selected_calendar_id <$> settings st) enabled d)
      end
  end.

(** [settings?.google_access_token !== null]: [undefined], the value when
    the settings are not loaded, is not [null]. *)
Definition hasGoogleConnection (st : State) : bool :=
  match settings st with
  | Some s => bool_decide (google_access_token s <> None)
  | None => true
  end.

Definition hasCalendars (st : State) : bool := (0 <? length (calendars st))%nat.

(** The truth of [hasGoogleConnection && hasCalendars &&
    settings?.selected_calendar_id]. *)
Definition canEnableService (st : State) : bool :=
  hasGoogleConnection st && hasCalendars st
  && truthy (settings st ≫= selected_calendar_id).

(** What the component renders. *)
Inductive View : Type :=
  | Spinner
  | Demo
  | Main (connect_button sync_button calendar_list service_toggle : bool).

Definition render (st : State) : View :=
  if loading st then Spinner
  else if showDemo st then Demo
  else Main (negb (hasGoogleConnection st)) (hasGoogleConnection st)
            (hasGoogleConnection st) (canEnableService st).
End Dashboard.

(** ** components/dashboard/CalendarList.tsx *)

Module CalendarList.
(** What is rendered for one calendar: the heading, the "Primary" badge,
    the check mark, the description line, and the button. *)
Record Card := {
  key : string;
  heading : string;
  badge : bool;
  check : bool;
  note : option string;
  button_label : string;
  highlighted : bool;
}.

(** [selectedCalendarId === calendar.id] *)
Definition is_selected (selectedCalendarId : option string) (calendar : Dashboard.CalendarItem)
  : bool :=
  match selectedCalendarId with
  | Some selected => String.eqb selected (Dashboard.id calendar)
  | None => false
  end.

Definition card (selectedCalendarId : option string) (calendar : Dashboard.CalendarItem)
  : Card :=
  {| key := Dashboard.id calendar;
     heading := Dashboard.summary calendar;
     badge := Dashboard.primary calendar;
     check := is_selected selectedCalendarId calendar;
     note := if truthy (Dashboard.description calendar)
             then Dashboard.description calendar else None;
     button_label := if is_selected selectedCalendarId calendar then "Selected" else "Select";
     highlighted := is_selected selectedCalendarId calendar |}.

(** The component: [None] is the "No calendars found" card. *)
Definition render (calendars : list Dashboard.CalendarItem)
    (selectedCalendarId : option string) : option (list Card) :=
  if (length calendars =? 0)%nat then None
  else Some (map (card selectedCalendarId) calendars).

(** The click handler of a card: [!disabled && onSelectCalendar(calendar.id)];
    the result lists the calls of [onSelectCalendar]. *)
Definition card_click (disabled : bool) (calendar : Dashboard.CalendarItem) : list string :=
  if disabled then [] else [Dashboard.id calendar].
End CalendarList.

(** ** pages/Index.tsx *)

Module Index.
Inductive Page : Type :=
  | Spinner
  | DashboardPage
  | AuthFormPage.

Definition render (st : AuthContext.State) : Page :=
  if AuthContext.loading st then Spinner
  else match AuthContext.user st with
       | Some _ => DashboardPage
       | None => AuthFormPage
       end.
End Index.

(** ** Vocabulary of further properties *)

(** The response carries the two CORS headers of the functions. *)
Definition has_cors (r : Response) : Prop :=
  In ("Access-Control-Allow-Origin", "*") (headers r) /\
  In ("Access-Control-Allow-Headers",
      "authorization, x-client-info, apikey, content-type") (headers r).

(** The fetch request can reach the provider: the caller's settings row
    passes the four checks. *)
Definition settings_ready (s : UserSettings.t) : Prop :=
  UserSettings.service_enabled s = true /\
  truthy (UserSettings.selected_calendar_id s) = true /\
  truthy (UserSettings.google_access_token s) = true.

(** The calendar list item the dashboard shows for a provider calendar that
    went through a sync. *)
Definition item_of_provider (c : GoogleCalendar.t) : Dashboard.CalendarItem :=
  {| Dashboard.id := GoogleCalendar.id c;
     Dashboard.summary := GoogleCalendar.summary c;
     Dashboard.description := js_or (GoogleCalendar.description c) None;
     Dashboard.primary := js_or_false (GoogleCalendar.primary c) |}.

(** A call that changes the store. *)
Definition is_store_write (e : Effect) : bool :=
  match e with
  | DbDeleteCalendars _ | DbInsertCalendars _ | DbUpsertSettings _ _
  | DbUpsertProfile _ _ => true
  | _ => false
  end.

(** A call that reaches the store. *)
Definition is_store_call (e : Effect) : bool :=
  match e with
  | DbSelectSettings _ => true
  | _ => is_store_write e
  end.

(** Further sample data. *)
Module Sample2.
(** A request without credentials. *)
Definition anonymous : Request := {| method := "POST"; authorization := None |}.

Definition preflight : Request := {| method := "OPTIONS"; authorization := None |}.

(** The provider refuses the calendar list call. *)
Definition env_calendars_401 : Env :=
  Sample.env Sample.now0930 (Sample.respond 401 "Invalid Credentials" None)
    Sample.events_ok Sample.no_error.

(** The provider lists only all-day events. *)
Definition env_all_day : Env :=
  Sample.env Sample.now0930 Sample.calendars_ok
    (Sample.respond 200 "" (Some [Sample.all_day])) Sample.no_error.

(** A row of another user. *)
Definition foreign : UserCalendar.t :=
  {| UserCalendar.user_id := "user-bob";
     UserCalendar.calendar_id := "work@example.com";
     UserCalendar.calendar_name := "Bob's work";
     UserCalendar.calendar_description := None;
     UserCalendar.is_primary := true |}.

Definition world_shared : World :=
  initial (Sample.database (Some Sample.settings_on) [Sample2.foreign; Sample.stale]).

Definition no_client_error : Dashboard.ClientOp -> option Dashboard.ClientError :=
  fun _ => None.

Definition client (errors : Dashboard.ClientOp -> option Dashboard.ClientError)
    (env : Env) : Dashboard.Client :=
  {| Dashboard.client_error := errors;
     Dashboard.access_token := "jwt-alice";
     Dashboard.functions_env := env |}.

Definition client_ok : Dashboard.Client := client no_client_error Sample.env_ok.

Definition timeout : Dashboard.ClientError :=
  {| Dashboard.code := "57014"; Dashboard.message := "canceling statement due to statement timeout" |}.

(** The settings read fails with an error other than PGRST116. *)
Definition client_load_fails : Dashboard.Client :=
  client (fun op => match op with
                    | Dashboard.LoadSettings => Some timeout
                    | _ => None
                    end) Sample.env_ok.

Definition client_save_fails : Dashboard.Client :=
  client (fun op => match op with
                    | Dashboard.SaveSelection | Dashboard.SaveService => Some timeout
                    | _ => None
                    end) Sample.env_ok.

(** The dashboard after the first load. *)
Definition loaded : Dashboard.State :=
  Dashboard.loadUserData (Some Sample.alice) client_ok (db Sample.world_on)
    Dashboard.initial.
End Sample2.

(** ** Tactics *)

(** Unfold the monad and the remote and storage calls of a handler. *)
Ltac unfold_async :=
  unfold getUser, getSession_provider_token, fetch_calendarList, fetch_events,
    select_settings_single, delete_calendars, insert_calendars,
    upsert_settings_token, upsert_profile in *;
  unfold bind, ret, throw, ask, perform, try_catch in *;
  cbv beta zeta in *.

(** Reduce the tests and record accesses a handler step leaves behind. *)
Ltac run_step :=
  cbn [negb from_option id truthy auth_error auth_user db log set_db
       with_calendars with_settings with_profiles
       user_calendars user_settings profiles trace] in *;
  cbv beta iota in *.

(** The effects of a run, read off the logged world. *)
Ltac show_performed :=
  unfold performed, log, set_db; cbn [trace db];
  rewrite <- ?List.app_assoc; reflexivity.

(** No kind of call occurs twice among the effects of a run. *)
Ltac show_no_retry :=
  eexists; split;
  [ show_performed
  | cbn [map effect_kind app]; apply (bool_decide_unpack _); vm_compute; reflexivity ].

(** Run [tac] on every outcome of the fetch function after authentication
    (goal: the stepwise run equals [(r, w')] implies the property). *)
Ltac each_fetch_outcome tac :=
  cbv zeta;
  match goal with
  | |- context [settings_read ?e ?w ?u] =>
      destruct (settings_read e w u) as [?settings|] eqn:?Hread
  end; [|tac];
  match goal with
  | |- context [UserSettings.service_enabled ?s] =>
      destruct (UserSettings.service_enabled s) eqn:?Hon
  end; cbn [negb]; [|tac];
  match goal with
  | |- context [truthy (UserSettings.selected_calendar_id ?s)] =>
      destruct (truthy (UserSettings.selected_calendar_id s)) eqn:?Hcal
  end; cbn [negb]; [|tac];
  match goal with
  | |- context [truthy (UserSettings.google_access_token ?s)] =>
      destruct (truthy (UserSettings.google_access_token s)) eqn:?Htok
  end; cbn [negb]; [|tac];
  match goal with
  | |- context [http_ok ?x] => destruct (http_ok x) eqn:?Hok
  end; cbn [negb];
  [ match goal with
    | |- context [http_json ?x] => destruct (http_json x) as [?message|?items] eqn:?Hjson
    end; tac
  | match goal with
    | |- context [(http_status ?x =? 401)%nat] =>
        destruct (http_status x =? 401)%nat eqn:?H401
    end; tac ].

(** * Properties *)

(** ** JavaScript helpers *)

Lemma truthy_Some (v : option string) :
  truthy v = true <-> exists s, v = Some s /\ s <> "".
Proof.
  destruct v as [s|]; simpl.
  - destruct (String.eqb_spec s ""); simpl; split.
    + discriminate.
    + intros (s' & [= <-] & Hs). contradiction.
    + intros _. eauto.
    + reflexivity.
  - split; [discriminate | intros (s & [=] & _)].
Qed.

Lemma truthy_false (v : option string) :
  truthy v = false <-> v = None \/ v = Some "".
Proof.
  destruct v as [s|]; simpl.
  - destruct (String.eqb_spec s ""); simpl; split; subst; auto.
    + discriminate.
    + intros [[=] | [= ->]]. contradiction.
  - split; auto.
Qed.

Lemma js_or_str_nonempty (v : option string) (d s : string) :
  v = Some s -> s <> "" -> js_or_str v d = s.
Proof.
  intros -> Hs. unfold js_or_str, js_or. simpl.
  destruct (String.eqb_spec s ""); [contradiction | reflexivity].
Qed.

Lemma js_or_str_default (v : option string) (d : string) :
  v = None \/ v = Some "" -> js_or_str v d = d.
Proof. intros [-> | ->]; reflexivity. Qed.

Lemma js_or_truthy (a b : option string) : truthy a = true -> js_or a b = a.
Proof. unfold js_or. intros ->. reflexivity. Qed.

Lemma js_or_falsy (a b : option string) : truthy a = false -> js_or a b = b.
Proof. unfold js_or. intros ->. reflexivity. Qed.

(** The text before the first separator. *)
Lemma split_head_app (sep : ascii) (a b : string) :
  (forall n, String.get n a <> Some sep) ->
  split_head sep (a ++ String sep b) = a.
Proof.
  induction a as [|c a IH]; intros Hno; simpl.
  - rewrite Ascii.eqb_refl. reflexivity.
  - destruct (Ascii.eqb_spec c sep) as [-> | _].
    + exfalso. apply (Hno 0%nat). reflexivity.
    + f_equal. apply IH. intros n. apply (Hno (S n)).
Qed.

(** Without a separator the whole string comes back. *)
Lemma split_head_none (sep : ascii) (a : string) :
  (forall n, String.get n a <> Some sep) -> split_head sep a = a.
Proof.
  induction a as [|c a IH]; intros Hno; simpl.
  - reflexivity.
  - destruct (Ascii.eqb_spec c sep) as [-> | _].
    + exfalso. apply (Hno 0%nat). reflexivity.
    + f_equal. apply IH. intros n. apply (Hno (S n)).
Qed.

(** ** [Array.prototype.find] *)

Lemma find_first {A} (f : A -> bool) (l : list A) (x : A) :
  List.find f l = Some x ->
  exists before rest,
    l = (before ++ x :: rest)%list /\ f x = true /\ forall y, In y before -> f y = false.
Proof.
  induction l as [|a l IH]; simpl; [discriminate|].
  destruct (f a) eqn:Ha.
  - intros [= ->]. exists [], l. repeat split; [assumption | intros y []].
  - intros Hfind. destruct (IH Hfind) as (before & rest & -> & Hx & Hbefore).
    exists (a :: before), rest. repeat split; [assumption|].
    intros y [<- | Hy]; auto.
Qed.

Lemma StronglySorted_split {A} (R : A -> A -> Prop) (before rest : list A) (x : A) :
  StronglySorted R (before ++ x :: rest) -> forall y, In y rest -> R x y.
Proof.
  induction before as [|a before IH]; simpl; intros Hs y Hy.
  - apply StronglySorted_inv in Hs as [_ Hall].
    rewrite List.Forall_forall in Hall. auto.
  - apply StronglySorted_inv in Hs as [Hs _]. eauto.
Qed.

Lemma starts_after_instant (parse : string -> option Z) (now : Z) (e : Event.t) :
  FetchEvents.starts_after parse now e = true <->
  exists t, start_instant parse e = Some t /\ now < t.
Proof.
  unfold FetchEvents.starts_after, start_instant.
  destruct (Event.startTime e) as [s|]; simpl.
  - destruct (parse s) as [t|]; simpl.
    + rewrite Z.ltb_lt. split; [eauto | intros (t' & [= <-] & H); exact H].
    + split; [discriminate | intros (t' & [=] & _)].
  - split; [discriminate | intros (t' & [=] & _)].
Qed.

Lemma nextEvent_first (parse : string -> option Z) (now : Z) (events : list Event.t)
    (e : Event.t) :
  FetchEvents.nextEvent parse now events = Some e -> first_after parse now events e.
Proof. intros H. apply find_first in H. exact H. Qed.

Lemma nextEvent_none (parse : string -> option Z) (now : Z) (events : list Event.t) :
  FetchEvents.nextEvent parse now events = None -> none_after parse now events.
Proof.
  intros H e t Hin Ht.
  pose proof (List.find_none _ _ H e Hin) as Hf.
  destruct (Z.le_gt_cases t now) as [Hle | Hgt]; [exact Hle|].
  assert (FetchEvents.starts_after parse now e = true) as Ht'
    by (apply starts_after_instant; eauto).
  congruence.
Qed.

Lemma first_after_earliest (parse : string -> option Z) (now : Z)
    (events : list Event.t) (e : Event.t) :
  first_after parse now events e ->
  ordered_by_start parse events ->
  earliest_after parse now events e.
Proof.
  intros (before & rest & Heq & He & Hbefore) Hsorted.
  apply starts_after_instant in He as (t & Ht & Hnow).
  split.
  - rewrite Heq. apply List.in_or_app. right. left. reflexivity.
  - exists t. repeat split; [assumption | assumption |].
    intros e' t' Hin Ht' Hnow'.
    rewrite Heq in Hin. apply List.in_app_or in Hin as [Hin | [<- | Hin]].
    + apply Hbefore in Hin.
      assert (FetchEvents.starts_after parse now e' = true) as Hyes
        by (apply starts_after_instant; eauto).
      congruence.
    + rewrite Ht in Ht'. injection Ht' as <-. lia.
    + unfold ordered_by_start in Hsorted. rewrite Heq in Hsorted.
      exact (StronglySorted_split _ _ _ _ Hsorted e' Hin t t' Ht Ht').
Qed.

(** ** Running the handlers *)

Lemma authenticated_header (req : Request) (env : Env) (user : User.t) :
  authenticated req env user ->
  truthy (authorization req) = true /\
  auth_getUser env (replace "Bearer " "" (default "" (authorization req)))
  = {| auth_user := Some user; auth_error := None |}.
Proof.
  intros (header & Hh & Hne & Hu). rewrite Hh. simpl. split; [|exact Hu].
  destruct (String.eqb_spec header ""); [contradiction | reflexivity].
Qed.

(** The fetch function up to the settings checks. *)
Lemma fetch_handler_authenticated (req : Request) (env : Env) (w : World) (user : User.t) :
  authenticated req env user ->
  FetchEvents.handler req env w =
  (let token := replace "Bearer " "" (default "" (authorization req)) in
   let w1 := log (DbSelectSettings (User.id user)) (log (AuthGetUser token) w) in
   match settings_read env w (User.id user) with
   | None => (Thrown settings_not_found, w1)
   | Some settings =>
       if negb (UserSettings.service_enabled settings)
       then (Thrown service_not_enabled, w1)
       else if negb (truthy (UserSettings.selected_calendar_id settings))
       then (Thrown no_calendar_selected, w1)
       else if negb (truthy (UserSettings.google_access_token settings))
       then (Thrown no_access_token, w1)
       else
         let request := FetchEvents.events_request settings (Date_now env) in
         let w2 := log (GoogleEvents request) w1 in
         let response := google_events env request in
         if negb (http_ok response)
         then
           if (http_status response =? 401)%nat
           then (Thrown token_expired, w2)
           else (Thrown ("Google Calendar API error: "
                         ++ number_to_string (http_status response)
                         ++ " - " ++ http_text response), w2)
         else
           match http_json response with
           | Unreadable message => (Thrown message, w2)
           | Readable items =>
               let filtered := FetchEvents.filteredEvents (default [] items) in
               (Normal (ok_response
                          (FetchEvents.success_body filtered
                             (FetchEvents.nextEvent (Date_parse env) (Date_now env)
                                filtered))),
                w2)
           end
   end).
Proof.
  intros Hauth. apply authenticated_header in Hauth as [Hh Hu].
  unfold FetchEvents.handler. rewrite Hh. unfold_async.
  cbn [negb]. rewrite Hu. cbn [auth_error auth_user].
  unfold settings_read. cbn [db log].
  destruct (storage_error env SelectSettings) as [e|]; [reflexivity|].
  destruct (user_settings (db w) !! User.id user) as [settings|]; [|reflexivity].
  cbv iota beta.
  destruct (UserSettings.service_enabled settings); [|reflexivity].
  destruct (truthy (UserSettings.selected_calendar_id settings)); [|reflexivity].
  destruct (truthy (UserSettings.google_access_token settings)); [|reflexivity].
  cbn [negb]. cbv beta iota.
  destruct (http_ok (google_events env _)).
  - cbn [negb]. cbv beta iota.
    destruct (http_json (google_events env _)); reflexivity.
  - cbn [negb]. cbv beta iota.
    destruct (http_status (google_events env _) =? 401)%nat; reflexivity.
Qed.

(** Shapes of the two kinds of answers. *)
Lemma error_response_not_success (message : string) : ~ is_success (error_response message).
Proof. intros (j & [= <-] & Hf). discriminate Hf. Qed.

Lemma preflight_not_success : ~ is_success preflight_response.
Proof. intros (j & [=] & _). Qed.

Lemma error_response_envelope (message : string) :
  status (error_response message) = 500%nat /\
  exists j, body (error_response message) = Some j /\ is_error_envelope message j.
Proof.
  split; [reflexivity|]. eexists; split; [reflexivity|].
  repeat split; eauto.
Qed.

Lemma authenticated_inj (req : Request) (env : Env) (u u' : User.t) :
  authenticated req env u -> authenticated req env u' -> u = u'.
Proof.
  intros (h & Hh & _ & Hu) (h' & Hh' & _ & Hu'). congruence.
Qed.

(** The sample request is authenticated as the sample user. *)
Lemma sample_authenticated (now : Z) (calendars : HttpResponse GoogleCalendar.t)
    (events : HttpResponse GoogleEvent.t) (errors : StorageOp -> option string) :
  authenticated Sample.request (Sample.env now calendars events errors) Sample.alice.
Proof.
  exists "Bearer jwt-alice". split; [reflexivity|]. split; [discriminate | reflexivity].
Qed.

(** A request that is not authenticated ends in the [catch] block of both
    functions after at most the identity lookup. *)
Lemma unauthenticated_throws (req : Request) (env : Env) (w : World) :
  (forall user, ~ authenticated req env user) ->
  exists message effects,
    FetchEvents.handler req env w
    = (Thrown message, {| db := db w; trace := (trace w ++ effects)%list |}) /\
    SyncCalendars.handler req env w
    = (Thrown message, {| db := db w; trace := (trace w ++ effects)%list |}) /\
    (effects = [] \/ exists token, effects = [AuthGetUser token]).
Proof.
  intros Hno.
  unfold FetchEvents.handler, SyncCalendars.handler, SyncCalendars.handler_with.
  unfold_async.
  destruct (authorization req) as [header|] eqn:Hheader; run_step.
  2:{ exists "No authorization header provided", []. rewrite List.app_nil_r.
      destruct w; auto. }
  destruct (String.eqb_spec header "") as [|Hne]; run_step.
  { exists "No authorization header provided", []. rewrite List.app_nil_r.
    destruct w; auto. }
  destruct (auth_getUser env (replace "Bearer " "" header)) as [u e] eqn:Hu; run_step.
  destruct e as [e|]; run_step; [eauto 10|].
  destruct u as [user|]; run_step; [|eauto 10].
  exfalso. apply (Hno user). exists header. auto.
Qed.

(** The same for the body of the sync function with a client in any state:
    the client is not looked at before the caller is authenticated. *)
Lemma sync_unauthenticated_throws (supabaseClient : SupabaseClient)
    (req : Request) (env : Env) (w : World) :
  (forall user, ~ authenticated req env user) ->
  exists message effects,
    SyncCalendars.handler_with supabaseClient req env w
    = (Thrown message, {| db := db w; trace := (trace w ++ effects)%list |}) /\
    (effects = [] \/ exists token, effects = [AuthGetUser token]).
Proof.
  intros Hno. unfold SyncCalendars.handler_with. unfold_async.
  destruct (authorization req) as [header|] eqn:Hheader; run_step.
  2:{ exists "No authorization header provided", []. rewrite List.app_nil_r.
      destruct w; auto. }
  destruct (String.eqb_spec header "") as [|Hne]; run_step.
  { exists "No authorization header provided", []. rewrite List.app_nil_r.
    destruct w; auto. }
  destruct (auth_getUser env (replace "Bearer " "" header)) as [u e] eqn:Hu; run_step.
  destruct e as [e|]; run_step; [eauto 10|].
  destruct u as [user|]; run_step; [|eauto 10].
  exfalso. apply (Hno user). exists header. auto.
Qed.

Lemma authenticated_or_not (req : Request) (env : Env) :
  (exists user, authenticated req env user) \/ (forall user, ~ authenticated req env user).
Proof.
  destruct (authorization req) as [header|] eqn:Hheader.
  2:{ right. intros user (h & Hh & _). congruence. }
  destruct (String.eqb_spec header "") as [->|Hne].
  { right. intros user (h & Hh & Hn & _). congruence. }
  destruct (auth_getUser env (replace "Bearer " "" header)) as [[user|] [e|]] eqn:Hu.
  2:{ left. exists user, header. auto. }
  all: right; intros user' (h & Hh & _ & Hu'); congruence.
Qed.

(** The body of the sync function after authentication, step by step, for a
    client in any state. *)
Lemma sync_handler_with_authenticated (supabaseClient : SupabaseClient)
    (req : Request) (env : Env) (w : World) (user : User.t) :
  authenticated req env user ->
  SyncCalendars.handler_with supabaseClient req env w =
  (let uid := User.id user in
   let token := replace "Bearer " "" (default "" (authorization req)) in
   let w1 := log AuthGetSession (log (AuthGetUser token) w) in
   match client_session supabaseClient ≫= provider_token with
   | None => (Thrown no_access_token, w1)
   | Some providerToken =>
       if String.eqb providerToken "" then (Thrown no_access_token, w1)
       else
         let w2 := log (GoogleCalendarList providerToken) w1 in
         let response := google_calendarList env providerToken in
         if negb (http_ok response)
         then (Thrown ("Google Calendar API error: "
                       ++ number_to_string (http_status response)
                       ++ " - " ++ http_text response), w2)
         else
           match http_json response with
           | Unreadable message => (Thrown message, w2)
           | Readable items =>
           let rows := map (SyncCalendars.calendarInsert user) (default [] items) in
           let kept := calendars_after_delete env uid (db w) in
           let w3 := log (DbDeleteCalendars uid) (set_db (with_calendars kept (db w)) w2) in
           let finish (w4 : World) :=
             (Normal (ok_response (SyncCalendars.success_body rows)),
              log (DbUpsertSettings uid providerToken)
                (match storage_error env UpsertSettings with
                 | Some _ => w4
                 | None =>
                     set_db
                       (with_settings
                          (<[uid := UserSettings.with_token providerToken
                                      (default UserSettings.default
                                               (user_settings (db w) !! uid))]>
                             (user_settings (db w)))
                          (db w4)) w4
                 end)) in
           if (0 <? length rows)%nat
           then
             let w4 := log (DbInsertCalendars rows) w3 in
             match storage_error env InsertCalendars with
             | Some e => (Thrown ("Error inserting calendars: " ++ e), w4)
             | None =>
                 if unique_calendarsb (kept ++ rows)
                 then finish (set_db (with_calendars (kept ++ rows) (db w)) w4)
                 else (Thrown ("Error inserting calendars: "
                               ++ "duplicate key value violates unique constraint"), w4)
             end
           else finish w3
           end
   end).
Proof.
  intros Hauth. apply authenticated_header in Hauth as [Hh Hu].
  unfold SyncCalendars.handler_with. rewrite Hh. unfold_async.
  cbn [negb]. rewrite Hu. cbn [auth_error auth_user].
  destruct w as [[settings calendars profs] tr].
  unfold calendars_after_delete, rows_of_others.
  destruct (client_session supabaseClient ≫= provider_token) as [providerToken|];
    run_step; [|reflexivity].
  destruct (String.eqb providerToken ""); run_step; [reflexivity|].
  destruct (http_ok (google_calendarList env providerToken)); run_step; [|reflexivity].
  destruct (http_json (google_calendarList env providerToken)) as [message|items];
    run_step; [reflexivity|].
  set (rows := map (SyncCalendars.calendarInsert user) _).
  destruct (storage_error env DeleteCalendars); run_step;
    destruct (0 <? length rows)%nat; run_step;
    try (destruct (storage_error env InsertCalendars); run_step; [reflexivity|]);
    try (destruct (unique_calendarsb _); run_step; [|reflexivity]);
    destruct (storage_error env UpsertSettings); reflexivity.
Qed.

(** The client the sync function makes holds no session, so the handler
    stops at the provider-token check. *)
Lemma sync_handler_authenticated (req : Request) (env : Env) (w : World) (user : User.t) :
  authenticated req env user ->
  SyncCalendars.handler req env w =
  (Thrown no_access_token,
   log AuthGetSession
     (log (AuthGetUser (replace "Bearer " "" (default "" (authorization req)))) w)).
Proof.
  intros Hauth. unfold SyncCalendars.handler. cbv zeta.
  rewrite (sync_handler_with_authenticated createClient req env w user Hauth).
  reflexivity.
Qed.

(** Every fetch request either succeeds with everything in place, or ends in
    the [catch] block. *)
Lemma fetch_serve_cases (req : Request) (env : Env) (w : World) (r : Response) (w' : World) :
  String.eqb (method req) "OPTIONS" = false ->
  FetchEvents.serve req env w = (r, w') ->
  (fetch_ready req env w /\
   exists user settings token items,
     authenticated req env user /\
     settings_read env w (User.id user) = Some settings /\
     let request := FetchEvents.events_request settings (Date_now env) in
     http_json (google_events env request) = Readable items /\
     let filtered := FetchEvents.filteredEvents (default [] items) in
     r = ok_response
           (FetchEvents.success_body filtered
              (FetchEvents.nextEvent (Date_parse env) (Date_now env) filtered)) /\
     db w' = db w /\
     performed w w'
       [AuthGetUser token; DbSelectSettings (User.id user); GoogleEvents request])
  \/
  (~ fetch_ready req env w /\
   exists message,
     FetchEvents.handler req env w = (Thrown message, w') /\ r = error_response message).
Proof.
  intros Hm Hrun. unfold FetchEvents.serve in Hrun. rewrite Hm in Hrun.
  destruct (authenticated_or_not req env) as [[user Hauth] | Hno].
  - pose proof (fetch_handler_authenticated req env w user Hauth) as Hh.
    rewrite Hh in Hrun. cbv zeta in Hh, Hrun.
    assert (fetch_ready req env w ->
            exists settings,
              settings_read env w (User.id user) = Some settings /\
              UserSettings.service_enabled settings = true /\
              truthy (UserSettings.selected_calendar_id settings) = true /\
              truthy (UserSettings.google_access_token settings) = true /\
              http_ok (google_events env
                         (FetchEvents.events_request settings (Date_now env))) = true /\
              exists items,
                http_json (google_events env
                             (FetchEvents.events_request settings (Date_now env)))
                = Readable items)
      as Hready.
    { intros (u' & s' & Hu' & Hs' & H1 & H2 & H3 & H4 & H5).
      rewrite <- (authenticated_inj _ _ _ _ Hauth Hu') in Hs'. eauto 10. }
    destruct (settings_read env w (User.id user)) as [settings|] eqn:Hread.
    2:{ right. injection Hrun as <- <-. split; [|eauto].
        intros Hr. apply Hready in Hr as (s & [=] & _). }
    destruct (UserSettings.service_enabled settings) eqn:Hon; cbn [negb] in *.
    2:{ right. injection Hrun as <- <-. split; [|eauto].
        intros Hr. apply Hready in Hr as (s & [= <-] & ? & ? & ? & ?). congruence. }
    destruct (truthy (UserSettings.selected_calendar_id settings)) eqn:Hcal; cbn [negb] in *.
    2:{ right. injection Hrun as <- <-. split; [|eauto].
        intros Hr. apply Hready in Hr as (s & [= <-] & ? & ? & ? & ?). congruence. }
    destruct (truthy (UserSettings.google_access_token settings)) eqn:Htok; cbn [negb] in *.
    2:{ right. injection Hrun as <- <-. split; [|eauto].
        intros Hr. apply Hready in Hr as (s & [= <-] & ? & ? & ? & ?). congruence. }
    destruct (http_ok (google_events env _)) eqn:Hok; cbn [negb] in *.
    + destruct (http_json (google_events env _)) as [message|items] eqn:Hjson.
      * right. injection Hrun as <- <-. split; [|eauto].
        intros Hr.
        apply Hready in Hr as (s & [= <-] & ? & ? & ? & ? & items & Hitems).
        congruence.
      * left. injection Hrun as <- <-. split.
        -- exists user, settings. cbv zeta. eauto 10.
        -- exists user, settings. eexists. exists items.
           repeat split; try assumption. show_performed.
    + right. split.
      { intros Hr. apply Hready in Hr as (s & [= <-] & ? & ? & ? & ? & ?). congruence. }
      destruct (http_status (google_events env _) =? 401)%nat;
        injection Hrun as <- <-; eauto.
  - destruct (unauthenticated_throws req env w Hno) as (m & effects & Hf & _ & _).
    rewrite Hf in Hrun. injection Hrun as <- <-. right. split; [|eauto].
    intros (u & _ & Hu & _). exact (Hno u Hu).
Qed.

(** Every sync request ends in the [catch] block, with the store as it
    was: without credentials at the authentication, with them at the
    provider-token check. *)
Lemma sync_serve_cases (req : Request) (env : Env) (w : World) (r : Response) (w' : World) :
  String.eqb (method req) "OPTIONS" = false ->
  SyncCalendars.serve req env w = (r, w') ->
  exists message,
    SyncCalendars.handler req env w = (Thrown message, w') /\
    r = error_response message /\
    db w' = db w /\
    ((exists user, authenticated req env user) -> message = no_access_token).
Proof.
  intros Hm Hrun. unfold SyncCalendars.serve in Hrun. rewrite Hm in Hrun.
  destruct (authenticated_or_not req env) as [[user Hauth] | Hno].
  - rewrite (sync_handler_authenticated req env w user Hauth) in *.
    injection Hrun as <- <-. eauto 10.
  - destruct (unauthenticated_throws req env w Hno) as (m & effects & _ & Hf & _).
    rewrite Hf in *. injection Hrun as <- <-. exists m.
    repeat split; try reflexivity. intros [user Hauth]. destruct (Hno user Hauth).
Qed.

(** ** No call is made twice *)

Lemma no_retry_refl (w : World) : no_retry w w.
Proof.
  exists []. split; [unfold performed; by rewrite List.app_nil_r | constructor].
Qed.

Lemma no_retry_unauthenticated (w : World) (effects : list Effect) :
  effects = [] \/ (exists token, effects = [AuthGetUser token]) ->
  no_retry w {| db := db w; trace := (trace w ++ effects)%list |}.
Proof.
  intros [-> | [token ->]]; eexists; (split; [reflexivity|]).
  - constructor.
  - cbn. apply (bool_decide_unpack _). vm_compute. reflexivity.
Qed.

Lemma fetch_no_retry (req : Request) (env : Env) (w : World) (r : Response) (w' : World) :
  FetchEvents.serve req env w = (r, w') -> no_retry w w'.
Proof.
  unfold FetchEvents.serve.
  destruct (String.eqb (method req) "OPTIONS").
  { intros [= <- <-]. apply no_retry_refl. }
  destruct (authenticated_or_not req env) as [[user Hauth] | Hno].
  - rewrite (fetch_handler_authenticated req env w user Hauth). cbv zeta.
    destruct (settings_read env w (User.id user)) as [settings|].
    2:{ intros [= <- <-]. show_no_retry. }
    destruct (UserSettings.service_enabled settings); cbn [negb].
    2:{ intros [= <- <-]. show_no_retry. }
    destruct (truthy (UserSettings.selected_calendar_id settings)); cbn [negb].
    2:{ intros [= <- <-]. show_no_retry. }
    destruct (truthy (UserSettings.google_access_token settings)); cbn [negb].
    2:{ intros [= <- <-]. show_no_retry. }
    destruct (http_ok (google_events env _)); cbn [negb].
    { destruct (http_json (google_events env _)); intros [= <- <-]; show_no_retry. }
    destruct (http_status (google_events env _) =? 401)%nat;
      intros [= <- <-]; show_no_retry.
  - destruct (unauthenticated_throws req env w Hno) as (m & effects & Hf & _ & Heff).
    rewrite Hf. intros [= <- <-]. apply no_retry_unauthenticated, Heff.
Qed.

Lemma sync_no_retry (supabaseClient : SupabaseClient)
    (req : Request) (env : Env) (w : World) (r : Response) (w' : World) :
  SyncCalendars.serve_with supabaseClient req env w = (r, w') -> no_retry w w'.
Proof.
  unfold SyncCalendars.serve_with.
  destruct (String.eqb (method req) "OPTIONS").
  { intros [= <- <-]. apply no_retry_refl. }
  destruct (authenticated_or_not req env) as [[user Hauth] | Hno].
  - rewrite (sync_handler_with_authenticated supabaseClient req env w user Hauth).
    cbv zeta.
    destruct (client_session supabaseClient ≫= provider_token) as [token|].
    2:{ intros [= <- <-]. show_no_retry. }
    destruct (String.eqb token "").
    { intros [= <- <-]. show_no_retry. }
    destruct (http_ok (google_calendarList env token)); cbn [negb].
    2:{ intros [= <- <-]. show_no_retry. }
    destruct (http_json (google_calendarList env token)) as [message|items].
    { intros [= <- <-]. show_no_retry. }
    destruct (0 <? length _)%nat.
    + destruct (storage_error env InsertCalendars).
      { intros [= <- <-]. show_no_retry. }
      destruct (unique_calendarsb _).
      2:{ intros [= <- <-]. show_no_retry. }
      destruct (storage_error env UpsertSettings); intros [= <- <-]; show_no_retry.
    + destruct (storage_error env UpsertSettings); intros [= <- <-]; show_no_retry.
  - destruct (sync_unauthenticated_throws supabaseClient req env w Hno)
      as (m & effects & Hf & Heff).
    rewrite Hf. intros [= <- <-]. apply no_retry_unauthenticated, Heff.
Qed.

(** ** The fetch function: preconditions and upstream failures *)

Lemma performed_inj (w w' : World) (e1 e2 : list Effect) :
  performed w w' e1 -> performed w w' e2 -> e1 = e2.
Proof.
  unfold performed. intros H1 H2. rewrite H1 in H2.
  exact (List.app_inv_head _ _ _ H2).
Qed.

Lemma no_provider_call_after_settings (w : World) (token uid : string) :
  no_provider_call w (log (DbSelectSettings uid) (log (AuthGetUser token) w)).
Proof.
  exists [AuthGetUser token; DbSelectSettings uid]. split; [show_performed|].
  repeat constructor.
Qed.

(** C5. For a fetch request of an authenticated caller, the four
    preconditions are checked before any call to the calendar provider, each
    failing with an error of its own: no settings row, service flag false,
    no calendar selected, no stored access token.  With the service flag
    false the answer is the error "Calert service is not enabled" and the
    provider is not called, whatever token and calendar the row holds. *)
Theorem fetch_preconditions_before_provider
    (req : Request) (env : Env) (w : World) (user : User.t) (r : Response) (w' : World) :
  String.eqb (method req) "OPTIONS" = false ->
  authenticated req env user ->
  FetchEvents.serve req env w = (r, w') ->
  let read := settings_read env w (User.id user) in
  (read = None ->
     r = error_response settings_not_found /\ no_provider_call w w') /\
  (forall s, read = Some s -> UserSettings.service_enabled s = false ->
     r = error_response "Calert service is not enabled" /\ no_provider_call w w') /\
  (forall s, read = Some s -> UserSettings.service_enabled s = true ->
     truthy (UserSettings.selected_calendar_id s) = false ->
     r = error_response no_calendar_selected /\ no_provider_call w w') /\
  (forall s, read = Some s -> UserSettings.service_enabled s = true ->
     truthy (UserSettings.selected_calendar_id s) = true ->
     truthy (UserSettings.google_access_token s) = false ->
     r = error_response no_access_token /\ no_provider_call w w') /\
  NoDup [settings_not_found; service_not_enabled; no_calendar_selected; no_access_token] /\
  (forall effects,
     performed w w' effects ->
     Exists (fun e => is_provider_call e = true) effects ->
     exists s, read = Some s /\
       UserSettings.service_enabled s = true /\
       truthy (UserSettings.selected_calendar_id s) = true /\
       truthy (UserSettings.google_access_token s) = true).
Proof.
  intros Hm Hauth Hrun read. subst read.
  unfold FetchEvents.serve in Hrun. rewrite Hm in Hrun.
  rewrite (fetch_handler_authenticated req env w user Hauth) in Hrun. cbv zeta in Hrun.
  assert (forall effects,
            no_provider_call w w' -> performed w w' effects ->
            ~ Exists (fun e => is_provider_call e = true) effects) as Hquiet.
  { intros effects (effects' & Hp' & Hall) Hp Hex.
    rewrite (performed_inj _ _ _ _ Hp Hp') in Hex.
    apply List.Exists_exists in Hex as (e & Hin & He).
    rewrite List.Forall_forall in Hall. specialize (Hall e Hin). congruence. }
  assert (NoDup [settings_not_found; service_not_enabled;
                 no_calendar_selected; no_access_token]) as Hdistinct.
  { apply (bool_decide_unpack _). vm_compute. reflexivity. }
  destruct (settings_read env w (User.id user)) as [settings|].
  2:{ injection Hrun as <- <-.
      pose proof (no_provider_call_after_settings w
                    (replace "Bearer " "" (default "" (authorization req)))
                    (User.id user)) as Hn.
      repeat split; try assumption; try discriminate.
      intros effects Hp Hex. destruct (Hquiet effects Hn Hp Hex). }
  destruct (UserSettings.service_enabled settings) eqn:Hon; cbn [negb] in Hrun.
  2:{ injection Hrun as <- <-.
      pose proof (no_provider_call_after_settings w
                    (replace "Bearer " "" (default "" (authorization req)))
                    (User.id user)) as Hn.
      repeat split; try assumption; try discriminate; try (intros; congruence).
      intros effects Hp Hex. destruct (Hquiet effects Hn Hp Hex). }
  destruct (truthy (UserSettings.selected_calendar_id settings)) eqn:Hcal;
    cbn [negb] in Hrun.
  2:{ injection Hrun as <- <-.
      pose proof (no_provider_call_after_settings w
                    (replace "Bearer " "" (default "" (authorization req)))
                    (User.id user)) as Hn.
      repeat split; try assumption; try discriminate; try (intros; congruence).
      intros effects Hp Hex. destruct (Hquiet effects Hn Hp Hex). }
  destruct (truthy (UserSettings.google_access_token settings)) eqn:Htok;
    cbn [negb] in Hrun.
  2:{ injection Hrun as <- <-.
      pose proof (no_provider_call_after_settings w
                    (replace "Bearer " "" (default "" (authorization req)))
                    (User.id user)) as Hn.
      repeat split; try assumption; try discriminate; try (intros; congruence).
      intros effects Hp Hex. destruct (Hquiet effects Hn Hp Hex). }
  repeat split; try assumption; try discriminate; try (intros; congruence).
  intros effects _ _. exists settings. auto.
Qed.

(** C6. When the provider's events endpoint answers 401, the fetch function
    fails with exactly "Google access token expired. Please reconnect your
    Google account." and attempts no token refresh: the events call is the
    last thing it does, and the store is left as it was.  For any other
    non-success status it fails with the generic upstream error made of the
    provider's status and body. *)
Theorem fetch_upstream_errors
    (req : Request) (env : Env) (w : World) (user : User.t) (settings : UserSettings.t)
    (r : Response) (w' : World) :
  String.eqb (method req) "OPTIONS" = false ->
  authenticated req env user ->
  settings_read env w (User.id user) = Some settings ->
  UserSettings.service_enabled settings = true ->
  truthy (UserSettings.selected_calendar_id settings) = true ->
  truthy (UserSettings.google_access_token settings) = true ->
  FetchEvents.serve req env w = (r, w') ->
  let request := FetchEvents.events_request settings (Date_now env) in
  let response := google_events env request in
  (http_status response = 401%nat ->
     r = error_response
           "Google access token expired. Please reconnect your Google account." /\
     db w' = db w /\
     exists token,
       performed w w'
         [AuthGetUser token; DbSelectSettings (User.id user); GoogleEvents request]) /\
  (http_ok response = false -> http_status response <> 401%nat ->
     r = error_response
           ("Google Calendar API error: " ++ number_to_string (http_status response)
            ++ " - " ++ http_text response)).
Proof.
  intros Hm Hauth Hread Hon Hcal Htok Hrun request response.
  unfold FetchEvents.serve in Hrun. rewrite Hm in Hrun.
  rewrite (fetch_handler_authenticated req env w user Hauth) in Hrun. cbv zeta in Hrun.
  rewrite Hread, Hon, Hcal, Htok in Hrun. cbn [negb] in Hrun.
  fold request in Hrun. fold response in Hrun.
  split.
  - intros H401. unfold http_ok in Hrun. rewrite H401 in Hrun.
    cbn in Hrun. injection Hrun as <- <-.
    split; [reflexivity|]. split; [reflexivity|]. eexists. show_performed.
  - intros Hnok Hne. rewrite Hnok in Hrun. cbn [negb] in Hrun.
    destruct (Nat.eqb_spec (http_status response) 401) as [|_]; [contradiction|].
    injection Hrun as <- <-. reflexivity.
Qed.

Lemma fetch_preconditions_before_provider_witness :
  fst (FetchEvents.serve Sample.request Sample.env_ok Sample.world_off)
  = error_response "Calert service is not enabled" /\
  no_provider_call Sample.world_off
    (snd (FetchEvents.serve Sample.request Sample.env_ok Sample.world_off)).
Proof.
  refine (proj1 (proj2 (fetch_preconditions_before_provider
                          Sample.request Sample.env_ok Sample.world_off Sample.alice
                          _ _ _ _ _))
            Sample.settings_off _ _).
  - reflexivity.
  - exists "Bearer jwt-alice".
    split; [reflexivity|]. split; [discriminate | reflexivity].
  - apply surjective_pairing.
  - vm_compute. reflexivity.
  - reflexivity.
Defined.

Lemma fetch_upstream_errors_witness :
  fst (FetchEvents.serve Sample.request Sample.env_401 Sample.world_on)
  = error_response "Google access token expired. Please reconnect your Google account." /\
  fst (FetchEvents.serve Sample.request Sample.env_503 Sample.world_on)
  = error_response "Google Calendar API error: 503 - Backend Error".
Proof.
  split.
  - refine (proj1 (proj1 (fetch_upstream_errors
                            Sample.request Sample.env_401 Sample.world_on Sample.alice
                            Sample.settings_on _ _ _ _ _ _ _ _ _) _)).
    + reflexivity.
    + exists "Bearer jwt-alice".
      split; [reflexivity|]. split; [discriminate | reflexivity].
    + vm_compute. reflexivity.
    + reflexivity.
    + reflexivity.
    + reflexivity.
    + apply surjective_pairing.
    + reflexivity.
  - refine (proj2 (fetch_upstream_errors
                     Sample.request Sample.env_503 Sample.world_on Sample.alice
                     Sample.settings_on _ _ _ _ _ _ _ _ _) _ _).
    + reflexivity.
    + exists "Bearer jwt-alice".
      split; [reflexivity|]. split; [discriminate | reflexivity].
    + vm_compute. reflexivity.
    + reflexivity.
    + reflexivity.
    + reflexivity.
    + apply surjective_pairing.
    + reflexivity.
    + discriminate.
Defined.

(** ** The error envelope of both functions *)

Lemma fetch_success_not_preflight (req : Request) (env : Env) (w : World)
    (r : Response) (w' : World) :
  FetchEvents.serve req env w = (r, w') -> is_success r ->
  String.eqb (method req) "OPTIONS" = false.
Proof.
  unfold FetchEvents.serve. destruct (String.eqb (method req) "OPTIONS"); [|reflexivity].
  intros [= <- <-] Hs. destruct (preflight_not_success Hs).
Qed.

(** C7. For every request to either function other than the pre-flight,
    whatever makes the request fail (authentication, a precondition, the
    provider's answer, the store) is caught at the top level and answered
    with status 500 and the body {success: false, error: message}, where
    message is the message of the error thrown.  A fetch request fails
    exactly when something is not in place ([fetch_ready]); a sync request
    always fails, because it never gets past the provider-token check.  No
    call is made twice in a run. *)
Theorem failures_answered_with_error_envelope (req : Request) (env : Env) (w : World) :
  String.eqb (method req) "OPTIONS" = false ->
  (forall r w', FetchEvents.serve req env w = (r, w') ->
     ((fetch_ready req env w /\ status r = 200%nat /\ is_success r) \/
      (~ fetch_ready req env w /\
       exists message,
         FetchEvents.handler req env w = (Thrown message, w') /\
         status r = 500%nat /\
         exists j, body r = Some j /\ is_error_envelope message j)) /\
     no_retry w w') /\
  (forall r w', SyncCalendars.serve req env w = (r, w') ->
     (exists message,
        SyncCalendars.handler req env w = (Thrown message, w') /\
        status r = 500%nat /\
        exists j, body r = Some j /\ is_error_envelope message j) /\
     no_retry w w').
Proof.
  intros Hm. split; intros r w' Hrun.
  - split; [|exact (fetch_no_retry _ _ _ _ _ Hrun)].
    destruct (fetch_serve_cases req env w r w' Hm Hrun)
      as [(Hready & user & settings & token & items & _ & _ & _ & Hr & _)
         | (Hnot & m & Hh & ->)].
    + left. cbv zeta in Hr. subst r. split; [exact Hready|]. split; [reflexivity|].
      eexists. split; reflexivity.
    + right. split; [exact Hnot|]. exists m. split; [exact Hh|].
      apply error_response_envelope.
  - split; [|exact (sync_no_retry createClient _ _ _ _ _ Hrun)].
    destruct (sync_serve_cases req env w r w' Hm Hrun) as (m & Hh & -> & _).
    exists m. split; [exact Hh|]. apply error_response_envelope.
Qed.

Lemma failures_answered_with_error_envelope_witness :
  status (fst (FetchEvents.serve Sample.request Sample.env_401 Sample.world_on)) = 500%nat /\
  status (fst (FetchEvents.serve Sample.request Sample.env_not_json Sample.world_on))
  = 500%nat /\
  status (fst (FetchEvents.serve Sample.request Sample.env_store_down Sample.world_on))
  = 500%nat /\
  status (fst (FetchEvents.serve Sample.request Sample.env_ok Sample.world_on)) = 200%nat /\
  status (fst (SyncCalendars.serve Sample.request Sample.env_ok Sample.world_on)) = 500%nat.
Proof.
  destruct (failures_answered_with_error_envelope
              Sample.request Sample.env_401 Sample.world_on eq_refl) as [Hfetch _].
  destruct (failures_answered_with_error_envelope
              Sample.request Sample.env_not_json Sample.world_on eq_refl) as [Hbody _].
  destruct (failures_answered_with_error_envelope
              Sample.request Sample.env_store_down Sample.world_on eq_refl) as [Hstore _].
  destruct (failures_answered_with_error_envelope
              Sample.request Sample.env_ok Sample.world_on eq_refl) as [Hok Hsync].
  split; [|split; [|split; [|split]]].
  - destruct (Hfetch _ _ (surjective_pairing _)) as [[(_ & _ & Hs) | (_ & m & _ & Hs & _)] _].
    + vm_compute in Hs. destruct Hs as (j & [= <-] & Hf). discriminate Hf.
    + exact Hs.
  - destruct (Hbody _ _ (surjective_pairing _)) as [[(_ & _ & Hs) | (_ & m & _ & Hs & _)] _].
    + vm_compute in Hs. destruct Hs as (j & [= <-] & Hf). discriminate Hf.
    + exact Hs.
  - destruct (Hstore _ _ (surjective_pairing _)) as [[(_ & _ & Hs) | (_ & m & _ & Hs & _)] _].
    + vm_compute in Hs. destruct Hs as (j & [= <-] & Hf). discriminate Hf.
    + exact Hs.
  - destruct (Hok _ _ (surjective_pairing _)) as [[(_ & Hs & _) | (_ & m & _ & Hs & _)] _].
    + exact Hs.
    + vm_compute in Hs. discriminate Hs.
  - destruct (Hsync _ _ (surjective_pairing _)) as [(m & _ & Hs & _) _]. exact Hs.
Defined.

(** ** The sync function: the calendar rows and the stored token *)

(** C1. The sync function never gets to replace the calendar rows.  The
    client the handler makes for itself holds no session, so the
    provider-token check fails for every authenticated caller: the request
    is answered with status 500 and "No Google access token found. Please
    reconnect your Google account.", after the identity lookup and the
    session read only.  Whatever the request, the answer is no success
    response, the provider's calendar list is not asked for, nothing is
    deleted or inserted, and the stored calendar rows are the ones from
    before. *)
Theorem sync_never_replaces_calendar_rows
    (req : Request) (env : Env) (w : World) (r : Response) (w' : World) :
  SyncCalendars.serve req env w = (r, w') ->
  ~ is_success r /\
  user_calendars (db w') = user_calendars (db w) /\
  no_provider_call w w' /\
  (forall user,
     String.eqb (method req) "OPTIONS" = false ->
     authenticated req env user ->
     r = error_response no_access_token /\
     exists bearer, performed w w' [AuthGetUser bearer; AuthGetSession]).
Proof.
  intros Hrun. unfold SyncCalendars.serve in Hrun.
  destruct (String.eqb (method req) "OPTIONS") eqn:Hm.
  { injection Hrun as <- <-.
    split; [exact preflight_not_success|]. split; [reflexivity|].
    split; [|discriminate].
    exists []. split; [unfold performed; by rewrite List.app_nil_r | constructor]. }
  destruct (authenticated_or_not req env) as [[user Hauth] | Hno].
  - rewrite (sync_handler_authenticated req env w user Hauth) in Hrun.
    injection Hrun as <- <-.
    split; [apply error_response_not_success|]. split; [reflexivity|].
    split.
    + eexists. split; [show_performed | repeat constructor].
    + intros _ _ _. split; [reflexivity|]. eexists. show_performed.
  - destruct (unauthenticated_throws req env w Hno) as (m & effects & _ & Hf & Heff).
    rewrite Hf in Hrun. injection Hrun as <- <-.
    split; [apply error_response_not_success|]. split; [reflexivity|].
    split.
    + exists effects. split; [reflexivity|].
      destruct Heff as [-> | [token ->]]; repeat constructor.
    + intros user _ Hauth. destruct (Hno user Hauth).
Qed.

(** The caller "user-alice" has the row of a calendar the provider no
    longer lists; the provider would list two calendars.  The sync request
    is answered with the provider-token error and the old row stays. *)
Lemma sync_never_replaces_calendar_rows_witness :
  fst (SyncCalendars.serve Sample.request Sample.env_ok Sample.world_new)
  = error_response no_access_token /\
  user_calendars (db (snd (SyncCalendars.serve Sample.request Sample.env_ok
                             Sample.world_new)))
  = [Sample.stale].
Proof.
  destruct (sync_never_replaces_calendar_rows
              Sample.request Sample.env_ok Sample.world_new _ _ (surjective_pairing _))
    as (_ & Hrows & _ & Hauth).
  split.
  - refine (proj1 (Hauth Sample.alice eq_refl _)).
    exists "Bearer jwt-alice". split; [reflexivity|].
    split; [discriminate | reflexivity].
  - exact Hrows.
Defined.

(** C2. The sync function never gets to persist a provider token.  No
    request changes the settings table or sends a write to the store, and
    no request is answered with a success response; for an authenticated
    caller the session read yields no provider token, so there is no token
    to use for the calendar-list call or to store, and the answer is
    status 500 with the provider-token error. *)
Theorem sync_never_persists_token
    (req : Request) (env : Env) (w : World) (r : Response) (w' : World) :
  SyncCalendars.serve req env w = (r, w') ->
  ~ is_success r /\
  user_settings (db w') = user_settings (db w) /\
  (exists effects,
     performed w w' effects /\
     Forall (fun e => is_store_call e = false /\ is_provider_call e = false) effects) /\
  (forall user,
     String.eqb (method req) "OPTIONS" = false ->
     authenticated req env user ->
     status r = 500%nat /\
     exists j, body r = Some j /\ is_error_envelope no_access_token j).
Proof.
  intros Hrun. unfold SyncCalendars.serve in Hrun.
  destruct (String.eqb (method req) "OPTIONS") eqn:Hm.
  { injection Hrun as <- <-.
    split; [exact preflight_not_success|]. split; [reflexivity|].
    split; [|discriminate].
    exists []. split; [unfold performed; by rewrite List.app_nil_r | constructor]. }
  destruct (authenticated_or_not req env) as [[user Hauth] | Hno].
  - rewrite (sync_handler_authenticated req env w user Hauth) in Hrun.
    injection Hrun as <- <-.
    split; [apply error_response_not_success|]. split; [reflexivity|].
    split.
    + eexists. split; [show_performed | repeat constructor].
    + intros _ _ _. apply error_response_envelope.
  - destruct (unauthenticated_throws req env w Hno) as (m & effects & _ & Hf & Heff).
    rewrite Hf in Hrun. injection Hrun as <- <-.
    split; [apply error_response_not_success|]. split; [reflexivity|].
    split.
    + exists effects. split; [reflexivity|].
      destruct Heff as [-> | [token ->]]; repeat constructor.
    + intros user _ Hauth. destruct (Hno user Hauth).
Qed.

(** The caller "user-alice" has no settings row yet.  After the sync
    request there is still none, and the answer has status 500. *)
Lemma sync_never_persists_token_witness :
  status (fst (SyncCalendars.serve Sample.request Sample.env_ok Sample.world_new))
  = 500%nat /\
  user_settings (db (snd (SyncCalendars.serve Sample.request Sample.env_ok
                            Sample.world_new))) !! "user-alice"
  = None.
Proof.
  destruct (sync_never_persists_token
              Sample.request Sample.env_ok Sample.world_new _ _ (surjective_pairing _))
    as (_ & Hsettings & _ & Hauth).
  split.
  - refine (proj1 (Hauth Sample.alice eq_refl _)).
    exists "Bearer jwt-alice". split; [reflexivity|].
    split; [discriminate | reflexivity].
  - rewrite Hsettings. reflexivity.
Defined.

(** ** The fetch function: the events of a success response *)

Lemma has_times_nonempty (event : GoogleEvent.t) :
  FetchEvents.has_times event = true <->
  has_nonempty_dateTime (GoogleEvent.start event) /\
  has_nonempty_dateTime (GoogleEvent.end_ event).
Proof.
  unfold FetchEvents.has_times, has_nonempty_dateTime.
  rewrite andb_true_iff, !truthy_Some. reflexivity.
Qed.





(** A success response of the fetch function is made from the provider's
    list, after everything before the provider call passed. *)
Lemma fetch_success (req : Request) (env : Env) (w : World) (r : Response) (w' : World) :
  FetchEvents.serve req env w = (r, w') ->
  is_success r ->
  exists user settings items,
    authenticated req env user /\
    settings_read env w (User.id user) = Some settings /\
    http_json (google_events env (FetchEvents.events_request settings (Date_now env)))
    = Readable items /\
    let provided := default [] items in
    r = ok_response
          (FetchEvents.success_body (FetchEvents.filteredEvents provided)
             (FetchEvents.nextEvent (Date_parse env) (Date_now env)
                (FetchEvents.filteredEvents provided))).
Proof.
  intros Hrun Hsuccess.
  pose proof (fetch_success_not_preflight _ _ _ _ _ Hrun Hsuccess) as Hm.
  destruct (fetch_serve_cases req env w r w' Hm Hrun)
    as [(_ & user & settings & token & items & Hauth & Hread & Hjson & Hr & _)
       | (_ & m & _ & ->)].
  - exists user, settings, items. auto.
  - destruct (error_response_not_success _ Hsuccess).
Qed.





(** C8 (amended). The normalized form of an event that passes the all-day
    filter has the provider's id; as title the provider's summary when it is
    a non-empty string and "Untitled Event" when the summary is absent or
    empty; the description and the location defaulted to the empty string;
    the provider's start and end date-times; and as meeting link the hangout
    link when it is a non-empty string, otherwise the HTML link, otherwise
    the empty string. *)
Theorem normalized_event_fields (event : GoogleEvent.t) :
  FetchEvents.has_times event = true ->
  let e := FetchEvents.normalize event in
  Event.id e = GoogleEvent.id event /\
  (forall s, GoogleEvent.summary event = Some s -> s <> "" -> Event.title e = s) /\
  (GoogleEvent.summary event = None \/ GoogleEvent.summary event = Some "" ->
   Event.title e = "Untitled Event") /\
  Event.description e = default "" (GoogleEvent.description event) /\
  (exists s t,
     EventTime.dateTime (GoogleEvent.start event) = Some s /\ s <> "" /\
     EventTime.dateTime (GoogleEvent.end_ event) = Some t /\ t <> "" /\
     Event.startTime e = Some s /\ Event.endTime e = Some t) /\
  Event.location e = default "" (GoogleEvent.location event) /\
  (forall link, GoogleEvent.hangoutLink event = Some link -> link <> "" ->
     Event.meetingLink e = link) /\
  (GoogleEvent.hangoutLink event = None \/ GoogleEvent.hangoutLink event = Some "" ->
   Event.meetingLink e = default "" (GoogleEvent.htmlLink event)).
Proof.
  intros Hkeep e. subst e.
  apply has_times_nonempty in Hkeep as [(s & Hs & Hsne) (t & Ht & Htne)].
  assert (forall v, js_or_str v "" = default "" v) as Hdefault.
  { intros [v|]; [|reflexivity]. unfold js_or_str, js_or. cbn.
    destruct (String.eqb_spec v ""); subst; reflexivity. }
  cbn [FetchEvents.normalize Event.id Event.title Event.description Event.startTime
       Event.endTime Event.location Event.meetingLink].
  split; [reflexivity|].
  split; [intros; by apply js_or_str_nonempty|].
  split; [apply js_or_str_default|].
  split; [apply Hdefault|].
  split; [exists s, t; auto 10|].
  split; [apply Hdefault|].
  split.
  - intros link Hlink Hne. rewrite js_or_truthy.
    + by apply js_or_str_nonempty.
    + apply truthy_Some. eauto.
  - intros Hfalsy. rewrite js_or_falsy; [apply Hdefault|].
    apply truthy_false. exact Hfalsy.
Qed.

Lemma normalized_event_fields_witness :
  Event.title (FetchEvents.normalize Sample.ev1000) = "Review" /\
  Event.title (FetchEvents.normalize Sample.blank) = "Untitled Event" /\
  Event.meetingLink (FetchEvents.normalize Sample.blank) = "https://calendar.example/e".
Proof.
  split; [|split].
  - refine (proj1 (proj2 (normalized_event_fields Sample.ev1000 _)) "Review" _ _).
    + reflexivity.
    + reflexivity.
    + discriminate.
  - refine (proj1 (proj2 (proj2 (normalized_event_fields Sample.blank _))) _).
    + reflexivity.
    + right. reflexivity.
  - refine (proj2 (proj2 (proj2 (proj2 (proj2 (proj2 (proj2
              (normalized_event_fields Sample.blank _))))))) _).
    + reflexivity.
    + right. reflexivity.
Defined.

(** C8, as stated, fails: an event that passes the filter with an empty
    summary and an empty hangout link gets the title "Untitled Event", not
    its summary, and the HTML link, not its hangout link. *)
Lemma empty_summary_is_defaulted :
  FetchEvents.has_times Sample.blank = true /\
  GoogleEvent.summary Sample.blank = Some "" /\
  Event.title (FetchEvents.normalize Sample.blank) = "Untitled Event" /\
  Event.title (FetchEvents.normalize Sample.blank) <> title_as_specified Sample.blank /\
  Event.meetingLink (FetchEvents.normalize Sample.blank)
  <> meetingLink_as_specified Sample.blank.
Proof. repeat split; discriminate. Qed.

(** What a success response of the fetch function is made of. *)
(** Filtering and normalizing keep the provider's order. *)
Lemma provider_ordered_filtered (parse : string -> option Z) (events : list GoogleEvent.t) :
  provider_ordered parse events ->
  ordered_by_start parse (FetchEvents.filteredEvents events).
Proof.
  unfold provider_ordered, ordered_by_start, FetchEvents.filteredEvents.
  induction 1 as [|event events Hsorted IH Hall]; [constructor|].
  cbn [List.filter]. destruct (FetchEvents.has_times event); [|exact IH].
  cbn [map]. constructor; [exact IH|].
  apply List.Forall_forall. intros e Hin.
  apply List.in_map_iff in Hin as (event' & <- & Hin).
  apply List.filter_In in Hin as [Hin _].
  rewrite List.Forall_forall in Hall. exact (Hall event' Hin).
Qed.

(** C3. In a success response of the fetch function, made from a provider
    list that is in the order the request asks for ([orderBy=startTime]),
    [nextEvent] is the earliest event of the filtered, normalized list whose
    start instant is strictly greater than the request instant; if no event
    of the list starts strictly after the request instant, [nextEvent] is
    null.  Whatever the order, [nextEvent] is the first event of the list, in
    list order, that starts strictly after the request instant. *)
Theorem next_event_is_earliest_after_now
    (req : Request) (env : Env) (w : World) (r : Response) (w' : World) :
  FetchEvents.serve req env w = (r, w') ->
  is_success r ->
  exists provided events next,
    (exists user settings items,
       authenticated req env user /\
       settings_read env w (User.id user) = Some settings /\
       http_json (google_events env (FetchEvents.events_request settings (Date_now env)))
       = Readable items /\
       provided = default [] items) /\
    events = FetchEvents.filteredEvents provided /\
    body r = Some (FetchEvents.success_body events next) /\
    field "nextEvent" (FetchEvents.success_body events next)
    = Some (from_option Event.to_json JNull next) /\
    (provider_ordered (Date_parse env) provided ->
     next_is_earliest (Date_parse env) (Date_now env) events next) /\
    match next with
    | Some e => first_after (Date_parse env) (Date_now env) events e
    | None => none_after (Date_parse env) (Date_now env) events
    end.
Proof.
  intros Hrun Hsuccess.
  destruct (fetch_success req env w r w' Hrun Hsuccess)
    as (user & settings & items & Hauth & Hread & Hjson & Hr).
  cbv zeta in Hr.
  exists (default [] items). eexists.
  exists (FetchEvents.nextEvent (Date_parse env) (Date_now env)
            (FetchEvents.filteredEvents (default [] items))).
  split; [exists user, settings, items; eauto|].
  split; [reflexivity|].
  split; [rewrite Hr; reflexivity|].
  split; [destruct (FetchEvents.nextEvent _ _ _); reflexivity|].
  destruct (FetchEvents.nextEvent _ _ _) as [e|] eqn:Hnext.
  - pose proof (nextEvent_first _ _ _ _ Hnext) as Hfirst.
    split; [|exact Hfirst].
    intros Hsorted. cbn [next_is_earliest].
    exact (first_after_earliest _ _ _ _ Hfirst (provider_ordered_filtered _ _ Hsorted)).
  - pose proof (nextEvent_none _ _ _ Hnext) as Hnone.
    split; [intros _|]; exact Hnone.
Qed.

(** Scenario: events at 09:00 and 10:00 (and an all-day event), request
    instant 09:30.  The next event is the 10:00 event, and it is the
    earliest one after 09:30. *)
Lemma next_event_is_earliest_after_now_witness :
  body (fst (FetchEvents.serve Sample.request Sample.env_ok Sample.world_on))
  = Some (FetchEvents.success_body
            [FetchEvents.normalize Sample.ev0900; FetchEvents.normalize Sample.ev1000]
            (Some (FetchEvents.normalize Sample.ev1000))) /\
  earliest_after DateTime.parse Sample.now0930
    [FetchEvents.normalize Sample.ev0900; FetchEvents.normalize Sample.ev1000]
    (FetchEvents.normalize Sample.ev1000).
Proof.
  destruct (next_event_is_earliest_after_now
              Sample.request Sample.env_ok Sample.world_on _ _ (surjective_pairing _))
    as (provided & events & next
        & (user & settings & items & Hauth & Hread & Hjson & ->) & -> & Hbody
        & _ & Hnext & _).
  - eexists. split; vm_compute; reflexivity.
  - apply (authenticated_inj _ _ _ _ (sample_authenticated _ _ _ _)) in Hauth.
    subst user. vm_compute in Hread. injection Hread as <-.
    vm_compute in Hjson. injection Hjson as <-.
    change (FetchEvents.filteredEvents _)
      with [FetchEvents.normalize Sample.ev0900; FetchEvents.normalize Sample.ev1000]
      in Hbody, Hnext.
    assert (next = Some (FetchEvents.normalize Sample.ev1000)) as ->.
    { clear Hnext. vm_compute in Hbody. injection Hbody as Hnext.
      destruct next as [[]|]; [|discriminate Hnext].
      injection Hnext as <- <- <- Hstart Hend <- <-.
      destruct startTime, endTime; try discriminate.
      injection Hstart as <-. injection Hend as <-. reflexivity. }
    split; [exact Hbody|].
    apply Hnext.
    repeat constructor; intros ta tb Ha Hb; vm_compute in Ha, Hb;
      try discriminate; injection Ha as <-; injection Hb as <-; discriminate.
Defined.

(** C10. In every success response of the fetch function, [totalCount] is
    the length of the [events] array, and [nextEvent] is null or an element
    of that array. *)
Theorem total_count_and_next_event
    (req : Request) (env : Env) (w : World) (r : Response) (w' : World) :
  FetchEvents.serve req env w = (r, w') ->
  is_success r ->
  exists j events,
    body r = Some j /\
    field "events" j = Some (JArray events) /\
    field "totalCount" j = Some (JNumber (Z.of_nat (length events))) /\
    (field "nextEvent" j = Some JNull \/
     exists e, field "nextEvent" j = Some e /\ e <> JNull /\ In e events).
Proof.
  intros Hrun Hsuccess.
  destruct (fetch_success req env w r w' Hrun Hsuccess)
    as (user & settings & items & _ & _ & _ & Hr).
  cbv zeta in Hr. subst r.
  set (events := FetchEvents.filteredEvents _).
  eexists. exists (map Event.to_json events).
  split; [reflexivity|].
  split; [reflexivity|].
  split; [cbn; rewrite List.length_map; reflexivity|].
  destruct (FetchEvents.nextEvent (Date_parse env) (Date_now env) events) as [e|] eqn:Hnext.
  - right. exists (Event.to_json e). split; [reflexivity|]. split; [discriminate|].
    apply List.in_map. exact (proj1 (List.find_some _ _ Hnext)).
  - left. reflexivity.
Qed.

Lemma total_count_and_next_event_witness :
  exists j events,
    body (fst (FetchEvents.serve Sample.request Sample.env_ok Sample.world_on)) = Some j /\
    field "events" j = Some (JArray events) /\
    field "totalCount" j = Some (JNumber (Z.of_nat (length events))) /\
    (field "nextEvent" j = Some JNull \/
     exists e, field "nextEvent" j = Some e /\ e <> JNull /\ In e events).
Proof.
  apply (total_count_and_next_event
           Sample.request Sample.env_ok Sample.world_on _ _ (surjective_pairing _)).
  eexists. split; vm_compute; reflexivity.
Defined.

(** ** The frontend: the profile upsert on sign-in *)

Lemma createOrUpdateProfile_run (u : User.t) (env : Env) (w : World) :
  AuthContext.createOrUpdateProfile u env w
  = (Normal tt,
     log (DbUpsertProfile (User.id u) (AuthContext.profile_row u))
       match storage_error env UpsertProfile with
       | Some _ => w
       | None =>
           set_db
             (with_profiles
                (<[User.id u :=
                     match profiles (db w) !! User.id u with
                     | Some old => merge_profile old (AuthContext.profile_row u)
                     | None => AuthContext.profile_row u
                     end]> (profiles (db w)))
                (db w)) w
       end).
Proof.
  unfold AuthContext.createOrUpdateProfile. unfold_async.
  destruct w as [d t]. destruct (storage_error env UpsertProfile); reflexivity.
Qed.

(** C9 (amended). On a sign-in event with a user the frontend schedules, with
    a zero-delay timer, an upsert of the user's profile; the callback itself
    only updates the state.  When the timer runs, one upsert keyed by the
    user's id is sent, and its outcome is dropped.  The display name of the
    upserted row is the provider-supplied full name when that is a non-empty
    string; otherwise it is the text of the email address before its first
    '@' (the whole address when it has none), and it is absent when the user
    has no email address. *)
Theorem sign_in_upserts_profile
    (s : AuthContext.Session) (st : AuthContext.State) (env : Env) (w : World) :
  let u := AuthContext.session_user s in
  let full_name := User.user_metadata u ≫= User.full_name in
  AuthContext.onAuthStateChange "SIGNED_IN" (Some s) st
  = ({| AuthContext.user := Some u; AuthContext.session := Some s;
        AuthContext.loading := false |},
     [ {| AuthContext.delay := 0;
          AuthContext.task := AuthContext.CreateOrUpdateProfile u |} ]) /\
  (exists w',
     AuthContext.run_timers (snd (AuthContext.onAuthStateChange "SIGNED_IN" (Some s) st))
       env w = (Normal tt, w') /\
     performed w w' [DbUpsertProfile (User.id u) (AuthContext.profile_row u)] /\
     (storage_error env UpsertProfile = None ->
      exists row, profiles (db w') !! User.id u = Some row /\
        forall name, AuthContext.display_name u = Some name ->
                     Profile.display_name row = Some name)) /\
  Profile.display_name (AuthContext.profile_row u) = AuthContext.display_name u /\
  (forall name, full_name = Some name -> name <> "" ->
     AuthContext.display_name u = Some name) /\
  (full_name = None \/ full_name = Some "" ->
     AuthContext.display_name u = split_head "@" <$> User.email u) /\
  (forall local domain,
     (forall n, String.get n local <> Some "@"%char) ->
     split_head "@" (local ++ String "@" domain) = local) /\
  (forall address,
     (forall n, String.get n address <> Some "@"%char) ->
     split_head "@" address = address).
Proof.
  intros u full_name.
  split; [reflexivity|].
  split.
  - change (snd (AuthContext.onAuthStateChange "SIGNED_IN" (Some s) st))
      with [ {| AuthContext.delay := 0;
                AuthContext.task := AuthContext.CreateOrUpdateProfile u |} ].
    cbn [AuthContext.run_timers AuthContext.run_task AuthContext.task].
    unfold bind, ret. rewrite createOrUpdateProfile_run.
    eexists. split; [reflexivity|].
    split.
    + destruct (storage_error env UpsertProfile); show_performed.
    + intros ->. cbn [log set_db with_profiles db profiles].
      eexists. split; [apply lookup_insert_eq|].
      intros name Hname.
      destruct (profiles (db w) !! User.id u) as [old|];
        cbn [merge_profile AuthContext.profile_row Profile.display_name];
        rewrite Hname; reflexivity.
  - split; [reflexivity|].
    split; [|split; [|split]].
    + intros name Hfull Hne. unfold AuthContext.display_name.
      unfold full_name in Hfull. rewrite js_or_truthy; [exact Hfull|].
      apply truthy_Some. eauto.
    + intros Hfalsy. unfold AuthContext.display_name.
      apply js_or_falsy. apply truthy_false. exact Hfalsy.
    + intros local domain. apply split_head_app.
    + intros address. apply split_head_none.
Qed.

Lemma sign_in_upserts_profile_witness :
  AuthContext.display_name Sample.alice = Some "Alice Liddell" /\
  AuthContext.display_name Sample.ann = Some "ann".
Proof.
  split.
  - refine (proj1 (proj2 (proj2 (proj2
      (sign_in_upserts_profile Sample.signed_in Sample.signed_out
         Sample.env_ok Sample.world_new)))) "Alice Liddell" _ _).
    + reflexivity.
    + discriminate.
  - refine (eq_trans (proj1 (proj2 (proj2 (proj2 (proj2
      (sign_in_upserts_profile {| AuthContext.session_user := Sample.ann |}
         Sample.signed_out Sample.env_ok Sample.world_new))))) _) _).
    + right. reflexivity.
    + reflexivity.
Defined.

(** C9, as stated, fails: for a user whose provider metadata has an empty
    full name, the display name of the upserted row is the local part of the
    email address, not the full name that is present. *)
Lemma empty_full_name_falls_back_to_email :
  User.user_metadata Sample.ann ≫= User.full_name = Some "" /\
  Profile.display_name (AuthContext.profile_row Sample.ann) = Some "ann" /\
  display_name_as_specified Sample.ann = Some "" /\
  Profile.display_name (AuthContext.profile_row Sample.ann)
  <> display_name_as_specified Sample.ann.
Proof. repeat split; discriminate. Qed.

(** * Further properties of the two functions *)

(** ** Before the identity is known *)

Lemma substring_all (s : string) (m : nat) :
  (String.length s <= m)%nat -> String.substring 0 m s = s.
Proof.
  revert m. induction s as [|c s IH]; intros [|m] Hm; simpl in *; try reflexivity; try lia.
  f_equal. apply IH. lia.
Qed.

Lemma substring_skip (pat rest : string) (m : nat) :
  String.substring (String.length pat) m (pat ++ rest) = String.substring 0 m rest.
Proof. induction pat as [|c pat IH]; simpl; [reflexivity | exact IH]. Qed.

Lemma prefix_append (pat rest : string) : String.prefix pat (pat ++ rest) = true.
Proof.
  induction pat as [|c pat IH]; simpl; [by destruct rest|].
  destruct (Ascii.ascii_dec c c); [exact IH | contradiction].
Qed.

(** [s.replace(pat, rep)] on a string that starts with [pat]. *)
Lemma replace_prefix (pat rep rest : string) :
  replace pat rep (pat ++ rest) = rep ++ rest.
Proof.
  assert (replace pat rep (pat ++ rest)
          = rep ++ String.substring (String.length pat) (String.length (pat ++ rest))
                     (pat ++ rest)) as ->.
  { assert (forall s, replace pat rep s
                       = if String.prefix pat s
                         then rep ++ String.substring (String.length pat) (String.length s) s
                         else match s with
                              | EmptyString => EmptyString
                              | String c s' => String c (replace pat rep s')
                              end) as Hunfold by (intros []; reflexivity).
    rewrite Hunfold, prefix_append. reflexivity. }
  rewrite substring_skip, substring_all; [reflexivity|].
  clear. induction pat as [|c pat IH].
  - change ("" ++ rest) with rest. lia.
  - change (String c pat ++ rest) with (String c (pat ++ rest)).
    cbn [String.length]. lia.
Qed.

Lemma no_header_throws (req : Request) (env : Env) (w : World) :
  truthy (authorization req) = false ->
  FetchEvents.handler req env w = (Thrown "No authorization header provided", w) /\
  SyncCalendars.handler req env w = (Thrown "No authorization header provided", w).
Proof.
  intros Hh.
  unfold FetchEvents.handler, SyncCalendars.handler, SyncCalendars.handler_with.
  rewrite Hh. split; reflexivity.
Qed.

Lemma lookup_failure_throws (req : Request) (env : Env) (w : World) (h : string) :
  authorization req = Some h -> h <> "" ->
  let token := replace "Bearer " "" h in
  let answer := auth_getUser env token in
  auth_error answer <> None \/ auth_user answer = None ->
  let message :=
    match auth_error answer with
    | Some e => "Authentication error: " ++ e
    | None => "User not authenticated"
    end in
  FetchEvents.handler req env w = (Thrown message, log (AuthGetUser token) w) /\
  SyncCalendars.handler req env w = (Thrown message, log (AuthGetUser token) w).
Proof.
  intros Hh Hne token answer Hfail message. subst token answer message.
  unfold FetchEvents.handler, SyncCalendars.handler, SyncCalendars.handler_with.
  rewrite Hh. unfold_async.
  cbn [truthy from_option id].
  destruct (String.eqb_spec h "") as [|_]; [contradiction|]. cbn [negb].
  destruct (auth_getUser env (replace "Bearer " "" h)) as [u e].
  cbn [auth_error auth_user] in *.
  destruct e as [e|]; [split; reflexivity|].
  destruct Hfail as [Hfail | ->]; [contradiction | split; reflexivity].
Qed.

(** X3. A request that is not authenticated stops before any storage or
    provider call in both functions: without a header it is answered "No
    authorization header provided" with nothing done; when the identity
    lookup reports an error it is answered "Authentication error: " followed
    by that error, and when the lookup finds no user "User not
    authenticated", in both cases after the lookup alone. *)
Theorem unauthenticated_requests_stop_early (req : Request) (env : Env) (w : World) :
  String.eqb (method req) "OPTIONS" = false ->
  (truthy (authorization req) = false ->
   FetchEvents.serve req env w = (error_response "No authorization header provided", w) /\
   SyncCalendars.serve req env w = (error_response "No authorization header provided", w)) /\
  (forall h e,
     authorization req = Some h -> h <> "" ->
     auth_error (auth_getUser env (replace "Bearer " "" h)) = Some e ->
     FetchEvents.serve req env w
     = (error_response ("Authentication error: " ++ e),
        log (AuthGetUser (replace "Bearer " "" h)) w) /\
     SyncCalendars.serve req env w
     = (error_response ("Authentication error: " ++ e),
        log (AuthGetUser (replace "Bearer " "" h)) w)) /\
  (forall h,
     authorization req = Some h -> h <> "" ->
     auth_error (auth_getUser env (replace "Bearer " "" h)) = None ->
     auth_user (auth_getUser env (replace "Bearer " "" h)) = None ->
     FetchEvents.serve req env w
     = (error_response "User not authenticated",
        log (AuthGetUser (replace "Bearer " "" h)) w) /\
     SyncCalendars.serve req env w
     = (error_response "User not authenticated",
        log (AuthGetUser (replace "Bearer " "" h)) w)).
Proof.
  intros Hm. unfold FetchEvents.serve, SyncCalendars.serve. rewrite Hm.
  split; [|split].
  - intros Hh. destruct (no_header_throws req env w Hh) as [-> ->]. split; reflexivity.
  - intros h e Hh Hne He.
    destruct (lookup_failure_throws req env w h Hh Hne) as [Hf Hs].
    { left. rewrite He. discriminate. }
    cbv zeta in Hf, Hs. rewrite He in Hf, Hs. rewrite Hf, Hs. split; reflexivity.
  - intros h Hh Hne He Hu.
    destruct (lookup_failure_throws req env w h Hh Hne) as [Hf Hs].
    { right. exact Hu. }
    cbv zeta in Hf, Hs. rewrite He in Hf, Hs. rewrite Hf, Hs. split; reflexivity.
Qed.

Lemma unauthenticated_requests_stop_early_witness :
  FetchEvents.serve Sample2.anonymous Sample.env_ok Sample.world_on
  = (error_response "No authorization header provided", Sample.world_on) /\
  SyncCalendars.serve
    {| method := "POST"; authorization := Some "Bearer jwt-mallory" |}
    Sample.env_ok Sample.world_on
  = (error_response "Authentication error: invalid JWT",
     log (AuthGetUser "jwt-mallory") Sample.world_on).
Proof.
  split.
  - refine (proj1 (proj1 (unauthenticated_requests_stop_early
                            Sample2.anonymous Sample.env_ok Sample.world_on _) _)).
    + reflexivity.
    + reflexivity.
  - refine (proj2 (proj1 (proj2 (unauthenticated_requests_stop_early
              {| method := "POST"; authorization := Some "Bearer jwt-mallory" |}
              Sample.env_ok Sample.world_on _))
              "Bearer jwt-mallory" "invalid JWT" _ _ _)).
    + reflexivity.
    + reflexivity.
    + discriminate.
    + reflexivity.
Defined.

(** The first call of a request with a header is the identity lookup of the
    header without its first "Bearer ". *)
Lemma lookup_comes_first (req : Request) (env : Env) (w : World) (h : string)
    (r : Response) (w' : World) :
  String.eqb (method req) "OPTIONS" = false ->
  authorization req = Some h -> h <> "" ->
  FetchEvents.serve req env w = (r, w') \/ SyncCalendars.serve req env w = (r, w') ->
  exists rest, performed w w' (AuthGetUser (replace "Bearer " "" h) :: rest).
Proof.
  intros Hm Hh Hne Hrun.
  unfold FetchEvents.serve, SyncCalendars.serve in Hrun. rewrite Hm in Hrun.
  destruct (auth_getUser env (replace "Bearer " "" h)) as [u e] eqn:Hanswer.
  assert (auth_error (auth_getUser env (replace "Bearer " "" h)) <> None \/
          auth_user (auth_getUser env (replace "Bearer " "" h)) = None \/
          exists user, authenticated req env user) as [Hfail | [Hfail | [user Hauth]]].
  { rewrite Hanswer. destruct e as [e|]; [left; discriminate|].
    destruct u as [user|]; [|right; left; reflexivity].
    right. right. exists user, h. auto. }
  1,2: destruct (lookup_failure_throws req env w h Hh Hne) as [Hf Hs]; [tauto|];
       cbv zeta in Hf, Hs; rewrite Hf, Hs in Hrun;
       destruct Hrun as [[= <- <-] | [= <- <-]]; exists []; reflexivity.
  rewrite (fetch_handler_authenticated req env w user Hauth) in Hrun.
  rewrite (sync_handler_authenticated req env w user Hauth) in Hrun.
  rewrite Hh in Hrun. cbv zeta in Hrun. cbn [from_option id] in Hrun.
  destruct Hrun as [Hrun | Hrun].
  - destruct (settings_read env w (User.id user)) as [settings|].
    2:{ injection Hrun as <- <-. eexists. show_performed. }
    destruct (UserSettings.service_enabled settings); cbn [negb] in Hrun.
    2:{ injection Hrun as <- <-. eexists. show_performed. }
    destruct (truthy (UserSettings.selected_calendar_id settings)); cbn [negb] in Hrun.
    2:{ injection Hrun as <- <-. eexists. show_performed. }
    destruct (truthy (UserSettings.google_access_token settings)); cbn [negb] in Hrun.
    2:{ injection Hrun as <- <-. eexists. show_performed. }
    destruct (http_ok (google_events env _)); cbn [negb] in Hrun.
    { destruct (http_json (google_events env _));
        injection Hrun as <- <-; eexists; show_performed. }
    destruct (http_status (google_events env _) =? 401)%nat;
      injection Hrun as <- <-; eexists; show_performed.
  - injection Hrun as <- <-. eexists. show_performed.
Qed.

(** X4. For a header "Bearer " followed by a credential, the identity both
    functions look up, before anything else, is exactly that credential. *)
Theorem bearer_credential_is_looked_up
    (req : Request) (env : Env) (w : World) (credential : string)
    (r : Response) (w' : World) :
  String.eqb (method req) "OPTIONS" = false ->
  authorization req = Some ("Bearer " ++ credential) ->
  FetchEvents.serve req env w = (r, w') \/ SyncCalendars.serve req env w = (r, w') ->
  replace "Bearer " "" ("Bearer " ++ credential) = credential /\
  exists rest, performed w w' (AuthGetUser credential :: rest).
Proof.
  intros Hm Hh Hrun.
  pose proof (replace_prefix "Bearer " "" credential) as Hreplace.
  change ("" ++ credential) with credential in Hreplace.
  split; [exact Hreplace|].
  rewrite <- Hreplace.
  apply (lookup_comes_first req env w ("Bearer " ++ credential) r w' Hm Hh);
    [discriminate | exact Hrun].
Qed.

Lemma bearer_credential_is_looked_up_witness :
  exists rest,
    performed Sample.world_on
      (snd (FetchEvents.serve Sample.request Sample.env_ok Sample.world_on))
      (AuthGetUser "jwt-alice" :: rest).
Proof.
  refine (proj2 (bearer_credential_is_looked_up
                   Sample.request Sample.env_ok Sample.world_on "jwt-alice" _ _ _ _ _)).
  - reflexivity.
  - reflexivity.
  - left. apply surjective_pairing.
Defined.

(** ** What the functions leave alone *)

Lemma Forall_not_write_unauthenticated (effects : list Effect) :
  effects = [] \/ (exists token, effects = [AuthGetUser token]) ->
  Forall (fun e => is_store_write e = false) effects.
Proof. intros [-> | [token ->]]; repeat constructor. Qed.

(** X2. The fetch function never changes the store: whatever the request
    and the answers it meets, the tables after the request are the tables
    before it, and none of its calls is a write. *)
Theorem fetch_never_writes
    (req : Request) (env : Env) (w : World) (r : Response) (w' : World) :
  FetchEvents.serve req env w = (r, w') ->
  db w' = db w /\
  exists effects,
    performed w w' effects /\ Forall (fun e => is_store_write e = false) effects.
Proof.
  unfold FetchEvents.serve.
  destruct (String.eqb (method req) "OPTIONS").
  { intros [= <- <-]. split; [reflexivity|]. exists []. split; [|constructor].
    unfold performed. by rewrite List.app_nil_r. }
  destruct (authenticated_or_not req env) as [[user Hauth] | Hno].
  - rewrite (fetch_handler_authenticated req env w user Hauth).
    each_fetch_outcome
      ltac:(intros [= <- <-]; split; [reflexivity|]; eexists;
            split; [show_performed | repeat constructor]).
  - destruct (unauthenticated_throws req env w Hno) as (m & effects & Hf & _ & Heff).
    rewrite Hf. intros [= <- <-]. split; [reflexivity|]. exists effects.
    split; [reflexivity | exact (Forall_not_write_unauthenticated _ Heff)].
Qed.

Lemma fetch_never_writes_witness :
  db (snd (FetchEvents.serve Sample.request Sample.env_ok Sample.world_on))
  = db Sample.world_on.
Proof.
  exact (proj1 (fetch_never_writes Sample.request Sample.env_ok Sample.world_on _ _
                  (surjective_pairing _))).
Defined.

(** X6. The sync function touches only the caller's rows: whatever the
    request and the answers it meets, the profiles table is unchanged, and
    for every identity other than the authenticated caller's the calendar
    rows and the settings row are the ones from before. *)
Theorem sync_touches_only_the_caller
    (req : Request) (env : Env) (w : World) (r : Response) (w' : World) (other : string) :
  SyncCalendars.serve req env w = (r, w') ->
  (forall user, authenticated req env user -> User.id user <> other) ->
  profiles (db w') = profiles (db w) /\
  rows_of other (user_calendars (db w')) = rows_of other (user_calendars (db w)) /\
  user_settings (db w') !! other = user_settings (db w) !! other.
Proof.
  unfold SyncCalendars.serve.
  destruct (String.eqb (method req) "OPTIONS").
  { intros [= <- <-] _. auto. }
  destruct (authenticated_or_not req env) as [[user Hauth] | Hno].
  - rewrite (sync_handler_authenticated req env w user Hauth).
    intros [= <- <-] _. auto.
  - destruct (unauthenticated_throws req env w Hno) as (m & effects & _ & Hf & _).
    rewrite Hf. intros [= <- <-] _. auto.
Qed.

Lemma sync_touches_only_the_caller_witness :
  rows_of "user-bob"
    (user_calendars (db (snd (SyncCalendars.serve Sample.request Sample.env_ok
                                Sample2.world_shared))))
  = [Sample2.foreign].
Proof.
  refine (proj1 (proj2 (sync_touches_only_the_caller
                          Sample.request Sample.env_ok Sample2.world_shared _ _
                          "user-bob" (surjective_pairing _) _))).
  intros user (h & [= <-] & _ & [= <-]). discriminate.
Defined.

(** ** The sync function: failures and edge cases *)

(** X5. Whatever session the client of the sync function holds: when it
    yields no provider token for an authenticated caller, the sync is
    answered "No Google access token found. Please reconnect your Google
    account." without any provider call; when the provider's calendar-list
    call answers a non-success status (401 included, which is not told apart
    here), it is answered with the generic upstream error made of the status
    and the body, after that one call.  In both cases the stored calendars
    and settings are left as they were.  The client the function makes holds
    no session, so the function served is in the first case. *)
Theorem sync_upstream_failures_keep_the_store
    (supabaseClient : SupabaseClient)
    (req : Request) (env : Env) (w : World) (user : User.t) (r : Response) (w' : World) :
  String.eqb (method req) "OPTIONS" = false ->
  authenticated req env user ->
  SyncCalendars.serve_with supabaseClient req env w = (r, w') ->
  (truthy (client_session supabaseClient ≫= provider_token) = false ->
   r = error_response no_access_token /\ db w' = db w /\ no_provider_call w w') /\
  (forall token,
     client_session supabaseClient ≫= provider_token = Some token -> token <> "" ->
     http_ok (google_calendarList env token) = false ->
     r = error_response
           ("Google Calendar API error: "
            ++ number_to_string (http_status (google_calendarList env token))
            ++ " - " ++ http_text (google_calendarList env token)) /\
     db w' = db w /\
     exists bearer,
       performed w w' [AuthGetUser bearer; AuthGetSession; GoogleCalendarList token]) /\
  SyncCalendars.serve req env w
  = (error_response no_access_token,
     log AuthGetSession
       (log (AuthGetUser (replace "Bearer " "" (default "" (authorization req)))) w)).
Proof.
  intros Hm Hauth Hrun. unfold SyncCalendars.serve_with in Hrun. rewrite Hm in Hrun.
  rewrite (sync_handler_with_authenticated supabaseClient req env w user Hauth) in Hrun.
  cbv zeta in Hrun.
  split; [|split].
  - intros Hfalsy.
    assert (r = error_response no_access_token /\
            w' = log AuthGetSession
                   (log (AuthGetUser (replace "Bearer " "" (default "" (authorization req))))
                      w)) as [-> ->].
    { apply truthy_false in Hfalsy as [Hnone | Hempty].
      - rewrite Hnone in Hrun. injection Hrun as <- <-. auto.
      - rewrite Hempty in Hrun. cbn in Hrun. injection Hrun as <- <-. auto. }
    split; [reflexivity|]. split; [reflexivity|].
    eexists. split; [show_performed | repeat constructor].
  - intros token Htoken Hne Hok. rewrite Htoken in Hrun.
    destruct (String.eqb_spec token "") as [|_]; [contradiction|].
    rewrite Hok in Hrun. cbn [negb] in Hrun. injection Hrun as <- <-.
    split; [reflexivity|]. split; [reflexivity|]. eexists. show_performed.
  - unfold SyncCalendars.serve. rewrite Hm.
    rewrite (sync_handler_authenticated req env w user Hauth). reflexivity.
Qed.

(** The function served, and the same body run with a client that holds a
    provider token while the provider refuses the calendar-list call. *)
Lemma sync_upstream_failures_keep_the_store_witness :
  (fst (SyncCalendars.serve Sample.request Sample2.env_calendars_401 Sample.world_on)
   = error_response no_access_token /\
   db (snd (SyncCalendars.serve Sample.request Sample2.env_calendars_401 Sample.world_on))
   = db Sample.world_on) /\
  (fst (SyncCalendars.serve_with Sample.signed_client Sample.request
          Sample2.env_calendars_401 Sample.world_on)
   = error_response "Google Calendar API error: 401 - Invalid Credentials" /\
   db (snd (SyncCalendars.serve_with Sample.signed_client Sample.request
              Sample2.env_calendars_401 Sample.world_on))
   = db Sample.world_on).
Proof.
  assert (authenticated Sample.request Sample2.env_calendars_401 Sample.alice) as Hauth
    by apply sample_authenticated.
  split.
  - destruct (sync_upstream_failures_keep_the_store createClient
                Sample.request Sample2.env_calendars_401 Sample.world_on Sample.alice
                _ _ eq_refl Hauth (surjective_pairing _)) as [Hnone _].
    destruct (Hnone eq_refl) as (Hr & Hdb & _).
    split; [exact Hr | exact Hdb].
  - destruct (sync_upstream_failures_keep_the_store Sample.signed_client
                Sample.request Sample2.env_calendars_401 Sample.world_on Sample.alice
                _ _ eq_refl Hauth (surjective_pairing _)) as (_ & Hupstream & _).
    destruct (Hupstream "ya29.token") as (Hr & Hdb & _);
      [reflexivity | discriminate | reflexivity |].
    split; [exact Hr | exact Hdb].
Defined.

(** ** Both functions: headers and statuses *)

Lemma cors_of_json_headers (status : nat) (j : option JSON) :
  has_cors {| status := status; headers := json_headers; body := j |}.
Proof. split; cbn; tauto. Qed.

(** X1. Every response of both functions carries the two CORS headers
    (any origin allowed) and has status 200 or 500.  The answer to an OPTIONS
    request has no body and is given without any call; every other response
    has a JSON body and the JSON content type. *)
Theorem responses_carry_cors
    (req : Request) (env : Env) (w : World) (r : Response) (w' : World) :
  FetchEvents.serve req env w = (r, w') \/ SyncCalendars.serve req env w = (r, w') ->
  has_cors r /\
  (status r = 200%nat \/ status r = 500%nat) /\
  (String.eqb (method req) "OPTIONS" = true -> body r = None /\ w' = w) /\
  (String.eqb (method req) "OPTIONS" = false ->
   body r <> None /\ In ("Content-Type", "application/json") (headers r)).
Proof.
  intros Hrun.
  destruct (String.eqb (method req) "OPTIONS") eqn:Hm.
  - unfold FetchEvents.serve, SyncCalendars.serve in Hrun. rewrite Hm in Hrun.
    assert (r = preflight_response /\ w' = w) as [-> ->]
      by (destruct Hrun as [[= <- <-] | [= <- <-]]; auto).
    split; [split; cbn; tauto|]. split; [left; reflexivity|].
    split; [auto | discriminate].
  - assert ((exists j, r = ok_response j) \/ (exists m, r = error_response m)) as Hshape.
    { destruct Hrun as [Hrun | Hrun].
      - destruct (fetch_serve_cases req env w r w' Hm Hrun)
          as [(_ & ? & ? & ? & ? & _ & _ & _ & -> & _) | (_ & m & _ & ->)]; eauto.
      - destruct (sync_serve_cases req env w r w' Hm Hrun) as (m & _ & -> & _); eauto. }
    destruct Hshape as [[j ->] | [m ->]].
    + split; [apply cors_of_json_headers|]. split; [left; reflexivity|].
      split; [discriminate|]. intros _. split; [discriminate | cbn; tauto].
    + split; [apply cors_of_json_headers|]. split; [right; reflexivity|].
      split; [discriminate|]. intros _. split; [discriminate | cbn; tauto].
Qed.

Lemma responses_carry_cors_witness :
  has_cors (fst (SyncCalendars.serve Sample2.preflight Sample.env_ok Sample.world_on)) /\
  snd (SyncCalendars.serve Sample2.preflight Sample.env_ok Sample.world_on)
  = Sample.world_on.
Proof.
  destruct (responses_carry_cors
              Sample2.preflight Sample.env_ok Sample.world_on _ _
              (or_intror (surjective_pairing _)))
    as (Hcors & _ & Hpre & _).
  split; [exact Hcors | exact (proj2 (Hpre eq_refl))].
Defined.

(** ** The fetch function: the provider call and the filtered list *)

Lemma filtered_ids_sublist (events : list GoogleEvent.t) :
  sublist (map Event.id (FetchEvents.filteredEvents events)) (map GoogleEvent.id events).
Proof.
  unfold FetchEvents.filteredEvents.
  induction events as [|e events IH]; cbn [List.filter map]; [constructor|].
  destruct (FetchEvents.has_times e); cbn [map].
  - apply sublist_skip. exact IH.
  - apply sublist_cons. exact IH.
Qed.

(** X11. The filter only drops events: the ids of the events of a fetch
    result are the ids of the provider's list with some left out, in the
    same order, so the result is never longer than the provider's list;
    every event of the result has a non-empty start and end date-time; and
    when every event of the provider's list has both, nothing is dropped. *)
Theorem filter_only_drops_events (events : list GoogleEvent.t) :
  sublist (map Event.id (FetchEvents.filteredEvents events)) (map GoogleEvent.id events) /\
  (length (FetchEvents.filteredEvents events) <= length events)%nat /\
  Forall (fun e => truthy (Event.startTime e) = true /\ truthy (Event.endTime e) = true)
    (FetchEvents.filteredEvents events) /\
  (Forall (fun e => FetchEvents.has_times e = true) events ->
   FetchEvents.filteredEvents events = map FetchEvents.normalize events).
Proof.
  split; [apply filtered_ids_sublist|].
  split.
  { pose proof (sublist_length _ _ (filtered_ids_sublist events)) as Hlen.
    rewrite !List.length_map in Hlen. exact Hlen. }
  split.
  - unfold FetchEvents.filteredEvents. apply List.Forall_forall. intros e Hin.
    apply List.in_map_iff in Hin as (e' & <- & Hin).
    apply List.filter_In in Hin as [_ Hkeep].
    unfold FetchEvents.has_times in Hkeep. apply andb_true_iff in Hkeep. exact Hkeep.
  - intros Hall. unfold FetchEvents.filteredEvents. f_equal.
    induction Hall as [|e events He _ IH]; [reflexivity|].
    cbn [List.filter]. rewrite He, IH. reflexivity.
Qed.

Lemma filter_only_drops_events_witness :
  FetchEvents.filteredEvents [Sample.ev0900; Sample.ev1000]
  = map FetchEvents.normalize [Sample.ev0900; Sample.ev1000].
Proof.
  refine (proj2 (proj2 (proj2
            (filter_only_drops_events [Sample.ev0900; Sample.ev1000]))) _).
  repeat constructor.
Defined.

(** X13. A fetch request that passes the four checks makes exactly one
    provider call, whatever the provider then answers: to the URL made of
    the events path with the stored calendar id pasted in as it is (not
    percent-encoded), with the stored token as bearer, over the window that
    starts at the request instant and ends exactly 24 hours (86 400 000 ms)
    later, asking for single events ordered by start time, 50 at most. *)
Theorem fetch_asks_for_the_next_24_hours
    (req : Request) (env : Env) (w : World) (user : User.t) (settings : UserSettings.t)
    (r : Response) (w' : World) :
  String.eqb (method req) "OPTIONS" = false ->
  authenticated req env user ->
  settings_read env w (User.id user) = Some settings ->
  settings_ready settings ->
  FetchEvents.serve req env w = (r, w') ->
  exists bearer_token question selected,
    performed w w'
      [AuthGetUser bearer_token; DbSelectSettings (User.id user); GoogleEvents question] /\
    UserSettings.selected_calendar_id settings = Some selected /\
    url question
    = "https://www.googleapis.com/calendar/v3/calendars/" ++ selected ++ "/events" /\
    UserSettings.google_access_token settings = Some (bearer question) /\
    timeMin question = Date_now env /\
    timeMax question - timeMin question = 86400000 /\
    singleEvents question = "true" /\
    orderBy question = "startTime" /\
    maxResults question = "50".
Proof.
  intros Hm Hauth Hread (Hon & Hcal & Htok) Hrun.
  unfold FetchEvents.serve in Hrun. rewrite Hm in Hrun.
  rewrite (fetch_handler_authenticated req env w user Hauth) in Hrun. cbv zeta in Hrun.
  rewrite Hread, Hon, Hcal, Htok in Hrun. cbn [negb] in Hrun.
  apply truthy_Some in Hcal as (c & Hc & _). apply truthy_Some in Htok as (t & Ht & _).
  exists (replace "Bearer " "" (default "" (authorization req))).
  exists (FetchEvents.events_request settings (Date_now env)).
  exists c.
  split.
  - destruct (http_ok _); cbn [negb] in Hrun;
      [destruct (http_json _) | destruct (http_status _ =? 401)%nat];
      injection Hrun as <- <-; show_performed.
  - unfold FetchEvents.events_request, FetchEvents.eventsUrl.
    cbn [url bearer timeMin timeMax singleEvents orderBy maxResults].
    rewrite Hc, Ht. cbn [from_option id]. repeat split; lia.
Qed.

Lemma fetch_asks_for_the_next_24_hours_witness :
  exists bearer_token question,
    performed Sample.world_on
      (snd (FetchEvents.serve Sample.request Sample.env_ok Sample.world_on))
      [AuthGetUser bearer_token; DbSelectSettings "user-alice"; GoogleEvents question] /\
    url question
    = "https://www.googleapis.com/calendar/v3/calendars/work@example.com/events" /\
    timeMin question = Sample.now0930 /\
    timeMax question = 1705397400000.
Proof.
  destruct (fetch_asks_for_the_next_24_hours
              Sample.request Sample.env_ok Sample.world_on Sample.alice Sample.settings_on
              _ _ eq_refl (sample_authenticated _ _ _ _) eq_refl
              (conj eq_refl (conj eq_refl eq_refl)) (surjective_pairing _))
    as (b & q & c & Hperf & [= <-] & Hurl & _ & Hmin & Hmax & _).
  exists b, q. split; [exact Hperf|]. split; [exact Hurl|].
  split; [exact Hmin|]. change (Date_now Sample.env_ok) with Sample.now0930 in Hmin.
  unfold Sample.now0930 in *. lia.
Defined.

Lemma filteredEvents_none (events : list GoogleEvent.t) :
  Forall (fun e => FetchEvents.has_times e = false) events ->
  FetchEvents.filteredEvents events = [].
Proof.
  unfold FetchEvents.filteredEvents.
  induction 1 as [|e events He _ IH]; [reflexivity|].
  cbn [List.filter]. rewrite He. exact IH.
Qed.

(** X12. A fetch request that passes the checks and gets a success status
    from the provider: when the body of the answer can be read and has no
    timed event (no [items], an empty list, or all-day events only), the
    request succeeds with an empty [events] array, a null [nextEvent] and a
    [totalCount] of 0; when the body cannot be read (it is not JSON, or an
    item lacks its start or end), the error thrown there is answered with
    status 500 and its message, and the store is as before. *)
Theorem fetch_without_timed_events
    (req : Request) (env : Env) (w : World) (user : User.t) (settings : UserSettings.t)
    (r : Response) (w' : World) :
  String.eqb (method req) "OPTIONS" = false ->
  authenticated req env user ->
  settings_read env w (User.id user) = Some settings ->
  settings_ready settings ->
  let answer := google_events env (FetchEvents.events_request settings (Date_now env)) in
  http_ok answer = true ->
  FetchEvents.serve req env w = (r, w') ->
  (forall items,
     http_json answer = Readable items ->
     Forall (fun e => FetchEvents.has_times e = false) (default [] items) ->
     status r = 200%nat /\
     exists j,
       body r = Some j /\
       field "success" j = Some (JBool true) /\
       field "events" j = Some (JArray []) /\
       field "nextEvent" j = Some JNull /\
       field "totalCount" j = Some (JNumber 0)) /\
  (forall message,
     http_json answer = Unreadable message ->
     r = error_response message /\ db w' = db w).
Proof.
  intros Hm Hauth Hread (Hon & Hcal & Htok) answer Hok Hrun.
  unfold FetchEvents.serve in Hrun. rewrite Hm in Hrun.
  rewrite (fetch_handler_authenticated req env w user Hauth) in Hrun. cbv zeta in Hrun.
  rewrite Hread, Hon, Hcal, Htok in Hrun. cbn [negb] in Hrun.
  fold answer in Hrun. rewrite Hok in Hrun. cbn [negb] in Hrun.
  split.
  - intros items Hjson Hnone. rewrite Hjson in Hrun.
    rewrite (filteredEvents_none _ Hnone) in Hrun. injection Hrun as <- <-.
    split; [reflexivity|]. eexists. split; [reflexivity|]. repeat split.
  - intros message Hjson. rewrite Hjson in Hrun. injection Hrun as <- <-.
    split; reflexivity.
Qed.

Lemma fetch_without_timed_events_witness :
  body (fst (FetchEvents.serve Sample.request Sample2.env_all_day Sample.world_on))
  = Some (FetchEvents.success_body [] None) /\
  fst (FetchEvents.serve Sample.request Sample.env_not_json Sample.world_on)
  = error_response "Unexpected token < in JSON at position 0".
Proof.
  split.
  - destruct (fetch_without_timed_events
                Sample.request Sample2.env_all_day Sample.world_on Sample.alice
                Sample.settings_on _ _ eq_refl (sample_authenticated _ _ _ _) eq_refl
                (conj eq_refl (conj eq_refl eq_refl)) eq_refl (surjective_pairing _))
      as [Hempty _].
    destruct (Hempty (Some [Sample.all_day]) eq_refl ltac:(repeat constructor))
      as (_ & j & Hbody & _).
    rewrite Hbody. f_equal.
    assert (Some j = Some (FetchEvents.success_body [] None)) as [= ->]; [|reflexivity].
    rewrite <- Hbody. vm_compute. reflexivity.
  - destruct (fetch_without_timed_events
                Sample.request Sample.env_not_json Sample.world_on Sample.alice
                Sample.settings_on _ _ eq_refl (sample_authenticated _ _ _ _) eq_refl
                (conj eq_refl (conj eq_refl eq_refl)) eq_refl (surjective_pairing _))
      as [_ Hthrown].
    exact (proj1 (Hthrown _ eq_refl)).
Defined.

(** * Further properties of the frontend *)

(** ** The auth context and the index page *)

(** X14. Every auth event settles the page: after the auth-state callback,
    and likewise after the session check on mount, the loading flag is off,
    the user is the session's user, and the index page shows the dashboard
    when there is a session and the sign-in form when there is none, never
    the spinner.  The callback schedules a profile upsert only for a
    SIGNED_IN event with a session, the session check whenever there is a
    session; whatever is scheduled is one zero-delay timer for the session's
    user. *)
Theorem auth_events_settle_the_page
    (event : string) (s : option AuthContext.Session) (st : AuthContext.State) :
  let after := fst (AuthContext.onAuthStateChange event s st) in
  let scheduled := snd (AuthContext.onAuthStateChange event s st) in
  fst (AuthContext.onGetSession s st) = after /\
  AuthContext.loading after = false /\
  AuthContext.session after = s /\
  AuthContext.user after = AuthContext.session_user <$> s /\
  Index.render after
  = match s with
    | Some _ => Index.DashboardPage
    | None => Index.AuthFormPage
    end /\
  (scheduled <> [] <-> is_Some s /\ event = "SIGNED_IN") /\
  (snd (AuthContext.onGetSession s st) <> [] <-> is_Some s) /\
  (forall t, In t scheduled \/ In t (snd (AuthContext.onGetSession s st)) ->
     AuthContext.delay t = 0%nat /\
     exists s', s = Some s' /\
       AuthContext.task t = AuthContext.CreateOrUpdateProfile (AuthContext.session_user s')).
Proof.
  unfold AuthContext.onAuthStateChange, AuthContext.onGetSession.
  destruct s as [s'|]; cbn [fmap option_fmap option_map].
  - assert (forall t,
              In t [ {| AuthContext.delay := 0;
                        AuthContext.task :=
                          AuthContext.CreateOrUpdateProfile (AuthContext.session_user s') |} ] ->
              AuthContext.delay t = 0%nat /\
              exists s'', Some s' = Some s'' /\
                AuthContext.task t
                = AuthContext.CreateOrUpdateProfile (AuthContext.session_user s''))
      as Htimer.
    { intros t [<- | []]. split; [reflexivity|]. exists s'. split; reflexivity. }
    destruct (String.eqb_spec event "SIGNED_IN") as [-> | Hne]; cbn [fst snd].
    + do 5 (split; [reflexivity|]).
      split; [split; [intros _; split; [eexists|]; reflexivity | discriminate]|].
      split; [split; [intros _; eexists; reflexivity | discriminate]|].
      intros t [Hin | Hin]; exact (Htimer t Hin).
    + do 5 (split; [reflexivity|]).
      split; [split; [intros Habs; contradiction | intros [_ Habs]; contradiction]|].
      split; [split; [intros _; eexists; reflexivity | discriminate]|].
      intros t [[] | Hin]. exact (Htimer t Hin).
  - cbn [fst snd]. do 5 (split; [reflexivity|]).
    split; [split; [intros Habs; contradiction | intros [[x Hx] _]; discriminate Hx]|].
    split; [split; [intros Habs; contradiction | intros [x Hx]; discriminate Hx]|].
    intros t [[] | []].
Qed.

Lemma auth_events_settle_the_page_witness :
  Index.render (fst (AuthContext.onAuthStateChange "SIGNED_OUT" None Sample.signed_out))
  = Index.AuthFormPage /\
  snd (AuthContext.onAuthStateChange "TOKEN_REFRESHED" (Some Sample.signed_in)
         Sample.signed_out) = [].
Proof.
  split.
  - exact (proj1 (proj2 (proj2 (proj2 (proj2
             (auth_events_settle_the_page "SIGNED_OUT" None Sample.signed_out)))))).
  - destruct (snd (AuthContext.onAuthStateChange "TOKEN_REFRESHED"
                     (Some Sample.signed_in) Sample.signed_out)) as [|t ts] eqn:Hs;
      [reflexivity|].
    destruct (proj1 (proj1 (proj2 (proj2 (proj2 (proj2 (proj2
                (auth_events_settle_the_page "TOKEN_REFRESHED" (Some Sample.signed_in)
                   Sample.signed_out)))))))
                ltac:(rewrite Hs; discriminate)) as [_ Habs].
    discriminate Habs.
Defined.

(** X15. The profile upsert never throws and touches one row at most.  It
    sends one upsert of the user's row.  A run the store refuses leaves the
    store as it was.  A run the store accepts leaves the settings, the
    calendar rows and the profiles of other users untouched; afterwards the
    user has a profile row whose email, display name and avatar are the
    payload's, each column the payload leaves out keeping the value stored
    before. *)
Theorem profile_upsert_touches_one_row (u : User.t) (env : Env) (w : World) :
  exists w1,
    AuthContext.createOrUpdateProfile u env w = (Normal tt, w1) /\
    performed w w1 [DbUpsertProfile (User.id u) (AuthContext.profile_row u)] /\
    user_settings (db w1) = user_settings (db w) /\
    user_calendars (db w1) = user_calendars (db w) /\
    (forall other, other <> User.id u ->
       profiles (db w1) !! other = profiles (db w) !! other) /\
    (storage_error env UpsertProfile <> None -> db w1 = db w) /\
    (storage_error env UpsertProfile = None ->
     exists row,
       profiles (db w1) !! User.id u = Some row /\
       (forall v, User.email u = Some v -> Profile.email row = Some v) /\
       (forall v, AuthContext.display_name u = Some v ->
          Profile.display_name row = Some v) /\
       (forall v, User.user_metadata u ≫= User.avatar_url = Some v ->
          Profile.avatar_url row = Some v) /\
       (forall old, profiles (db w) !! User.id u = Some old ->
          (User.email u = None -> Profile.email row = Profile.email old) /\
          (AuthContext.display_name u = None ->
           Profile.display_name row = Profile.display_name old) /\
          (User.user_metadata u ≫= User.avatar_url = None ->
           Profile.avatar_url row = Profile.avatar_url old))).
Proof.
  eexists. split; [apply createOrUpdateProfile_run|].
  destruct (storage_error env UpsertProfile) as [e|].
  - split; [show_performed|].
    repeat split; try reflexivity. discriminate.
  - split; [show_performed|].
    cbn [log set_db with_profiles db profiles user_settings user_calendars].
    split; [reflexivity|]. split; [reflexivity|].
    split; [intros other Hne; apply lookup_insert_ne; congruence|].
    split; [intros Habs; contradiction|].
    intros _. rewrite lookup_insert_eq. eexists. split; [reflexivity|].
    destruct (profiles (db w) !! User.id u) as [old|];
      unfold merge_profile, AuthContext.profile_row;
      cbn [Profile.email Profile.display_name Profile.avatar_url].
    + split; [intros v ->; reflexivity|].
      split; [intros v ->; reflexivity|].
      split; [intros v ->; reflexivity|].
      intros old' [= <-].
      split; [intros ->; reflexivity|].
      split; intros ->; reflexivity.
    + split; [intros v Hv; exact Hv|].
      split; [intros v Hv; exact Hv|].
      split; [intros v Hv; exact Hv|].
      discriminate.
Qed.

(** The store accepts the upsert for the sample user, who had no profile
    row: afterwards the row has the full name as display name. *)
Lemma profile_upsert_touches_one_row_witness :
  exists w1 row,
    AuthContext.createOrUpdateProfile Sample.alice Sample.env_ok Sample.world_on
    = (Normal tt, w1) /\
    profiles (db w1) !! "user-alice" = Some row /\
    Profile.display_name row = Some "Alice Liddell" /\
    user_calendars (db w1) = user_calendars (db Sample.world_on).
Proof.
  destruct (profile_upsert_touches_one_row Sample.alice Sample.env_ok Sample.world_on)
    as (w1 & Hrun & _ & _ & Hrows & _ & _ & Haccepted).
  destruct (Haccepted eq_refl) as (row & Hrow & _ & Hname & _).
  exists w1, row. split; [exact Hrun|]. split; [exact Hrow|].
  split; [apply Hname; reflexivity | exact Hrows].
Defined.

(** ** The dashboard *)

(** X16. When both reads succeed, loading the user data shows what is
    stored: the settings are the three columns of the user's settings row,
    or the defaults (nothing selected, service off, no token) when the user
    has no row; the calendar list has one item per calendar row of the user,
    in the store's order, with the row's calendar id, name, description and
    primary flag, and nothing of other users; the loading flag is off and no
    toast is shown.  An error of the settings read with code PGRST116 counts
    as having no row. *)
Theorem load_shows_what_is_stored
    (u : User.t) (c : Dashboard.Client) (d : Database) (st : Dashboard.State) :
  Dashboard.client_error c Dashboard.LoadCalendars = None ->
  let st' := Dashboard.loadUserData (Some u) c d st in
  (Dashboard.client_error c Dashboard.LoadSettings = None ->
   Dashboard.settings st'
   = Some (from_option Dashboard.of_row Dashboard.default_settings
             (user_settings d !! User.id u))) /\
  (forall e, Dashboard.client_error c Dashboard.LoadSettings = Some e ->
     Dashboard.code e = "PGRST116" ->
     Dashboard.settings st' = Some Dashboard.default_settings) /\
  ((Dashboard.client_error c Dashboard.LoadSettings = None \/
    exists e, Dashboard.client_error c Dashboard.LoadSettings = Some e /\
              Dashboard.code e = "PGRST116") ->
   Dashboard.calendars st'
   = map Dashboard.calendarItem (rows_of (User.id u) (user_calendars d)) /\
   Dashboard.loading st' = false /\
   Dashboard.toasts st' = Dashboard.toasts st /\
   Dashboard.updating st' = Dashboard.updating st).
Proof.
  intros Hcal st'. subst st'. unfold Dashboard.loadUserData. rewrite Hcal.
  destruct (Dashboard.client_error c Dashboard.LoadSettings) as [e|] eqn:Hset.
  - split; [discriminate|]. split.
    + intros e' [= <-] Hcode. rewrite Hcode. reflexivity.
    + intros [Habs | (e' & [= <-] & Hcode)]; [discriminate|].
      rewrite Hcode. repeat split.
  - split.
    + intros _. cbn. destruct (user_settings d !! User.id u); reflexivity.
    + split; [discriminate|]. intros _. repeat split.
Qed.

Lemma load_shows_what_is_stored_witness :
  Dashboard.settings Sample2.loaded = Some (Dashboard.of_row Sample.settings_on) /\
  Dashboard.calendars Sample2.loaded = [Dashboard.calendarItem Sample.stale].
Proof.
  destruct (load_shows_what_is_stored Sample.alice Sample2.client_ok (db Sample.world_on)
              Dashboard.initial eq_refl) as (Hsettings & _ & Hrest).
  split.
  - exact (Hsettings eq_refl).
  - exact (proj1 (Hrest (or_introl eq_refl))).
Defined.

(** X17. When a read fails, loading the user data keeps what it cannot
    replace and tells the user once: an error of the settings read (other
    than PGRST116) leaves settings and calendar list as they were, and the
    calendars are not read; an error of the calendars read leaves the
    calendar list as it was, after the settings were set.  In both cases the
    loading flag is turned off and one destructive toast "Error loading
    data" with the error's message is shown. *)
Theorem load_failure_is_reported_once
    (u : User.t) (c : Dashboard.Client) (d : Database) (st : Dashboard.State)
    (e : Dashboard.ClientError) :
  let st' := Dashboard.loadUserData (Some u) c d st in
  let reported :=
    (Dashboard.toasts st
     ++ [ {| Dashboard.title := "Error loading data";
             Dashboard.toast_description := Dashboard.message e;
             Dashboard.destructive := true |} ])%list in
  (Dashboard.client_error c Dashboard.LoadSettings = Some e ->
   Dashboard.code e <> "PGRST116" ->
   Dashboard.settings st' = Dashboard.settings st /\
   Dashboard.calendars st' = Dashboard.calendars st /\
   Dashboard.loading st' = false /\
   Dashboard.toasts st' = reported) /\
  (Dashboard.client_error c Dashboard.LoadSettings = None ->
   Dashboard.client_error c Dashboard.LoadCalendars = Some e ->
   Dashboard.settings st'
   = Some (from_option Dashboard.of_row Dashboard.default_settings
             (user_settings d !! User.id u)) /\
   Dashboard.calendars st' = Dashboard.calendars st /\
   Dashboard.loading st' = false /\
   Dashboard.toasts st' = reported).
Proof.
  intros st' reported. subst st' reported. unfold Dashboard.loadUserData. split.
  - intros Hset Hcode. rewrite Hset. apply String.eqb_neq in Hcode. rewrite Hcode.
    repeat split.
  - intros Hset Hcal. rewrite Hset, Hcal. cbn.
    destruct (user_settings d !! User.id u); repeat split.
Qed.

Lemma load_failure_is_reported_once_witness :
  Dashboard.settings
    (Dashboard.loadUserData (Some Sample.alice) Sample2.client_load_fails
       (db Sample.world_on) Dashboard.initial) = None /\
  Dashboard.loading
    (Dashboard.loadUserData (Some Sample.alice) Sample2.client_load_fails
       (db Sample.world_on) Dashboard.initial) = false.
Proof.
  destruct (proj1 (load_failure_is_reported_once Sample.alice Sample2.client_load_fails
                     (db Sample.world_on) Dashboard.initial Sample2.timeout) eq_refl)
    as (Hsettings & _ & Hloading & _).
  - discriminate.
  - split; [exact Hsettings | exact Hloading].
Defined.

(** X18. No mutation leaves the dashboard busy, except a connect that
    succeeds: after a sync, and after a calendar selection or a service
    toggle by a signed-in user, the updating flag is off whatever happened;
    after a connect it is off when the sign-in call failed and stays on when
    it succeeded.  A selection or a toggle shows exactly one toast, a
    destructive one exactly when the store refused the write; a connect
    shows one only when the sign-in call failed.  None of them turns the
    loading flag back on. *)
Theorem mutations_clear_the_updating_flag
    (u : User.t) (c : Dashboard.Client) (st : Dashboard.State) (w : World)
    (calendarId : string) (enabled : bool) :
  let synced := fst (Dashboard.syncCalendars (Some u) c st w) in
  let selected := fst (Dashboard.updateCalendarSelection calendarId (Some u) c st (db w)) in
  let toggled := fst (Dashboard.toggleService enabled (Some u) c st (db w)) in
  let connected := Dashboard.connectGoogleCalendar c st in
  Dashboard.updating synced = false /\
  Dashboard.updating selected = false /\
  Dashboard.updating toggled = false /\
  (Dashboard.updating connected = true
   <-> Dashboard.client_error c Dashboard.SignInWithOAuth = None) /\
  (exists t, Dashboard.toasts selected = (Dashboard.toasts st ++ [t])%list /\
     (Dashboard.destructive t = true
      <-> Dashboard.client_error c Dashboard.SaveSelection <> None)) /\
  (exists t, Dashboard.toasts toggled = (Dashboard.toasts st ++ [t])%list /\
     (Dashboard.destructive t = true
      <-> Dashboard.client_error c Dashboard.SaveService <> None)) /\
  (Dashboard.client_error c Dashboard.SignInWithOAuth = None ->
   Dashboard.toasts connected = Dashboard.toasts st) /\
  (Dashboard.loading st = false ->
   Dashboard.loading synced = false /\ Dashboard.loading selected = false /\
   Dashboard.loading toggled = false /\ Dashboard.loading connected = false).
Proof.
  intros synced selected toggled connected.
  subst synced selected toggled connected.
  unfold Dashboard.updateCalendarSelection, Dashboard.toggleService,
    Dashboard.connectGoogleCalendar.
  split.
  { unfold Dashboard.syncCalendars.
    destruct (Dashboard.invoke_sync c w) as [[data error] w']. reflexivity. }
  split; [destruct (Dashboard.client_error c Dashboard.SaveSelection); reflexivity|].
  split; [destruct (Dashboard.client_error c Dashboard.SaveService); reflexivity|].
  split.
  { destruct (Dashboard.client_error c Dashboard.SignInWithOAuth); cbn;
      split; congruence. }
  split.
  { destruct (Dashboard.client_error c Dashboard.SaveSelection); cbn;
      eexists; (split; [reflexivity|]); cbn; split; congruence. }
  split.
  { destruct (Dashboard.client_error c Dashboard.SaveService); cbn;
      eexists; (split; [reflexivity|]); cbn; split; congruence. }
  split.
  { intros ->. reflexivity. }
  intros Hloading. split.
  { unfold Dashboard.syncCalendars.
    destruct (Dashboard.invoke_sync c w) as [[data error] w'].
    cbn [fst Dashboard.setUpdating Dashboard.loading].
    destruct error as [e|]; [exact Hloading|].
    destruct (data ≫= field "calendars") as [[| | | |items|]|]; try exact Hloading.
    unfold Dashboard.loadUserData.
    destruct (Dashboard.client_error c Dashboard.LoadSettings) as [e|];
      [destruct (String.eqb (Dashboard.code e) "PGRST116")|];
      destruct (Dashboard.client_error c Dashboard.LoadCalendars); reflexivity. }
  split; [destruct (Dashboard.client_error c Dashboard.SaveSelection); exact Hloading|].
  split; [destruct (Dashboard.client_error c Dashboard.SaveService); exact Hloading|].
  destruct (Dashboard.client_error c Dashboard.SignInWithOAuth); exact Hloading.
Qed.

Lemma mutations_clear_the_updating_flag_witness :
  Dashboard.updating (Dashboard.connectGoogleCalendar Sample2.client_ok Sample2.loaded)
  = true /\
  Dashboard.loading
    (fst (Dashboard.syncCalendars (Some Sample.alice) Sample2.client_ok Sample2.loaded
            Sample.world_on)) = false.
Proof.
  destruct (mutations_clear_the_updating_flag Sample.alice Sample2.client_ok
              Sample2.loaded Sample.world_on "work@example.com" true)
    as (_ & _ & _ & Hconnect & _ & _ & _ & Hloading).
  split.
  - apply Hconnect. reflexivity.
  - exact (proj1 (Hloading eq_refl)).
Defined.

Lemma upsert_preferences_row (uid : string) (selected : option (option string))
    (enabled : bool) (d : Database) :
  let d' := Dashboard.upsert_preferences uid selected enabled d in
  let old := default UserSettings.default (user_settings d !! uid) in
  (exists row,
     user_settings d' !! uid = Some row /\
     UserSettings.selected_calendar_id row
     = default (UserSettings.selected_calendar_id old) selected /\
     UserSettings.service_enabled row = enabled /\
     UserSettings.google_access_token row = UserSettings.google_access_token old) /\
  (forall other, other <> uid -> user_settings d' !! other = user_settings d !! other) /\
  user_calendars d' = user_calendars d /\
  profiles d' = profiles d.
Proof.
  cbv zeta. unfold Dashboard.upsert_preferences.
  cbn [with_settings user_settings user_calendars profiles].
  split.
  - eexists. split; [apply lookup_insert_eq|]. repeat split.
  - split; [|split; reflexivity].
    intros other Hne. apply lookup_insert_ne. congruence.
Qed.

(** X19. Selecting a calendar writes the dashboard's view of the
    preferences: when the store accepts the write, the user's settings row
    holds the selected calendar id and, as service flag, the flag of the
    dashboard's copy of the settings (false when no settings are loaded, not
    the flag stored before); the stored token, the rows of other users and
    the calendar rows are untouched, and the dashboard's copy gets the new
    selection.  When the store refuses the write, the store and the
    dashboard's copy are left as they were. *)
Theorem selection_is_stored
    (calendarId : string) (u : User.t) (c : Dashboard.Client) (st : Dashboard.State)
    (d : Database) :
  let st' := fst (Dashboard.updateCalendarSelection calendarId (Some u) c st d) in
  let d' := snd (Dashboard.updateCalendarSelection calendarId (Some u) c st d) in
  (Dashboard.client_error c Dashboard.SaveSelection = None ->
   (exists row,
      user_settings d' !! User.id u = Some row /\
      UserSettings.selected_calendar_id row = Some calendarId /\
      UserSettings.service_enabled row
      = from_option Dashboard.service_enabled false (Dashboard.settings st) /\
      UserSettings.google_access_token row
      = (user_settings d !! User.id u) ≫= UserSettings.google_access_token) /\
   (forall other, other <> User.id u ->
      user_settings d' !! other = user_settings d !! other) /\
   user_calendars d' = user_calendars d /\
   Dashboard.settings st'
   = Dashboard.select_calendar calendarId <$> Dashboard.settings st) /\
  (Dashboard.client_error c Dashboard.SaveSelection <> None ->
   d' = d /\ Dashboard.settings st' = Dashboard.settings st).
Proof.
  intros st' d'. subst st' d'. unfold Dashboard.updateCalendarSelection.
  destruct (Dashboard.client_error c Dashboard.SaveSelection) as [e|]; cbn [fst snd].
  - split; [discriminate|]. intros _. split; reflexivity.
  - split; [|contradiction]. intros _.
    destruct (upsert_preferences_row (User.id u) (Some (Some calendarId))
                (from_option Dashboard.service_enabled false (Dashboard.settings st)) d)
      as ((row & Hrow & Hsel & Hon & Htok) & Hothers & Hcal & _).
    split.
    + exists row. split; [exact Hrow|]. split; [exact Hsel|]. split; [exact Hon|].
      rewrite Htok. destruct (user_settings d !! User.id u); reflexivity.
    + split; [exact Hothers|]. split; [exact Hcal | reflexivity].
Qed.

Lemma selection_is_stored_witness :
  UserSettings.selected_calendar_id
  <$> user_settings
        (snd (Dashboard.updateCalendarSelection "family@example.com" (Some Sample.alice)
                Sample2.client_ok Sample2.loaded (db Sample.world_on))) !! "user-alice"
  = Some (Some "family@example.com") /\
  snd (Dashboard.updateCalendarSelection "family@example.com" (Some Sample.alice)
         Sample2.client_save_fails Sample2.loaded (db Sample.world_on))
  = db Sample.world_on.
Proof.
  split.
  - destruct (proj1 (selection_is_stored "family@example.com" Sample.alice
                       Sample2.client_ok Sample2.loaded (db Sample.world_on)) eq_refl)
      as ((row & Hrow & Hsel & _) & _).
    change (User.id Sample.alice) with "user-alice" in Hrow.
    rewrite Hrow. cbn. rewrite Hsel. reflexivity.
  - refine (proj1 (proj2 (selection_is_stored "family@example.com" Sample.alice
                            Sample2.client_save_fails Sample2.loaded
                            (db Sample.world_on)) _)).
    discriminate.
Defined.

(** X20. The service toggle of the dashboard governs the fetch function.
    After a toggle the store accepted, a fetch request of the same user:
    when the service was switched off, is answered "Calert service is not
    enabled" without any provider call; when it was switched on, with a
    calendar selected in the dashboard's settings and a non-empty token
    stored, makes one provider call, with that token as bearer, to the
    events URL that has the selected id pasted in as it is. *)
Theorem toggle_governs_fetch
    (enabled : bool) (u : User.t) (c : Dashboard.Client) (st : Dashboard.State)
    (d : Database) (req : Request) (env : Env) (w : World) (r : Response) (w' : World) :
  Dashboard.client_error c Dashboard.SaveService = None ->
  db w = snd (Dashboard.toggleService enabled (Some u) c st d) ->
  String.eqb (method req) "OPTIONS" = false ->
  authenticated req env u ->
  storage_error env SelectSettings = None ->
  FetchEvents.serve req env w = (r, w') ->
  (enabled = false ->
   r = error_response "Calert service is not enabled" /\ no_provider_call w w') /\
  (enabled = true ->
   forall s selected token,
     Dashboard.settings st = Some s ->
     Dashboard.selected_calendar_id s = Some selected -> selected <> "" ->
     (user_settings d !! User.id u) ≫= UserSettings.google_access_token = Some token ->
     token <> "" ->
     exists bearer_token question,
       performed w w'
         [AuthGetUser bearer_token; DbSelectSettings (User.id u); GoogleEvents question] /\
       url question
       = "https://www.googleapis.com/calendar/v3/calendars/" ++ selected ++ "/events" /\
       bearer question = token).
Proof.
  intros Hsave Hdb Hm Hauth Hselect Hrun.
  unfold Dashboard.toggleService in Hdb. rewrite Hsave in Hdb. cbn [snd] in Hdb.
  destruct (upsert_preferences_row (User.id u)
              (Dashboard.selected_calendar_id <$> Dashboard.settings st) enabled d)
    as ((row & Hrow & Hsel & Hon & Htok) & _).
  rewrite <- Hdb in Hrow.
  assert (settings_read env w (User.id u) = Some row) as Hread.
  { unfold settings_read. rewrite Hselect. exact Hrow. }
  unfold FetchEvents.serve in Hrun. rewrite Hm in Hrun.
  rewrite (fetch_handler_authenticated req env w u Hauth) in Hrun. cbv zeta in Hrun.
  rewrite Hread, Hon in Hrun.
  split.
  - intros ->. cbn [negb] in Hrun. injection Hrun as <- <-.
    split; [reflexivity | apply no_provider_call_after_settings].
  - intros -> s selected token Hs Hselected Hne Htoken Htne. cbn [negb] in Hrun.
    rewrite Hs in Hsel. cbn in Hsel. rewrite Hselected in Hsel.
    assert (UserSettings.google_access_token row = Some token) as Hrowtok.
    { rewrite Htok. destruct (user_settings d !! User.id u); [exact Htoken | discriminate]. }
    assert (truthy (UserSettings.selected_calendar_id row) = true) as Hcal
      by (apply truthy_Some; eauto).
    assert (truthy (UserSettings.google_access_token row) = true) as Htr
      by (apply truthy_Some; eauto).
    rewrite Hcal, Htr in Hrun. cbn [negb] in Hrun.
    exists (replace "Bearer " "" (default "" (authorization req))).
    exists (FetchEvents.events_request row (Date_now env)).
    split.
    + destruct (http_ok _); cbn [negb] in Hrun;
        [destruct (http_json _) | destruct (http_status _ =? 401)%nat];
        injection Hrun as <- <-; show_performed.
    + unfold FetchEvents.events_request, FetchEvents.eventsUrl. cbn [url bearer].
      rewrite Hsel, Hrowtok. split; reflexivity.
Qed.

(** The sample user switches the service off, then on again: the first
    fetch is refused, the second one asks the provider for the events of
    the selected calendar. *)
Lemma toggle_governs_fetch_witness :
  fst (FetchEvents.serve Sample.request Sample.env_ok
         (initial (snd (Dashboard.toggleService false (Some Sample.alice) Sample2.client_ok
                          Sample2.loaded (db Sample.world_on)))))
  = error_response "Calert service is not enabled" /\
  exists bearer_token question,
    performed
      (initial (snd (Dashboard.toggleService true (Some Sample.alice) Sample2.client_ok
                       Sample2.loaded (db Sample.world_off))))
      (snd (FetchEvents.serve Sample.request Sample.env_ok
              (initial (snd (Dashboard.toggleService true (Some Sample.alice)
                               Sample2.client_ok Sample2.loaded
                               (db Sample.world_off))))))
      [AuthGetUser bearer_token; DbSelectSettings "user-alice"; GoogleEvents question] /\
    url question
    = "https://www.googleapis.com/calendar/v3/calendars/work@example.com/events" /\
    bearer question = "ya29.token".
Proof.
  split.
  - refine (proj1 (proj1 (toggle_governs_fetch false Sample.alice Sample2.client_ok
                            Sample2.loaded (db Sample.world_on) Sample.request
                            Sample.env_ok
                            (initial (snd (Dashboard.toggleService false
                                             (Some Sample.alice) Sample2.client_ok
                                             Sample2.loaded (db Sample.world_on))))
                            _ _ _ _ _ _ _ (surjective_pairing _)) _)).
    + reflexivity.
    + reflexivity.
    + reflexivity.
    + apply sample_authenticated.
    + reflexivity.
    + reflexivity.
  - refine (proj2 (toggle_governs_fetch true Sample.alice Sample2.client_ok
                     Sample2.loaded (db Sample.world_off) Sample.request Sample.env_ok
                     (initial (snd (Dashboard.toggleService true (Some Sample.alice)
                                      Sample2.client_ok Sample2.loaded
                                      (db Sample.world_off))))
                     _ _ _ _ _ _ _ (surjective_pairing _)) _
                  _ "work@example.com" "ya29.token" _ _ _ _ _).
    + reflexivity.
    + reflexivity.
    + reflexivity.
    + apply sample_authenticated.
    + reflexivity.
    + reflexivity.
    + reflexivity.
    + reflexivity.
    + discriminate.
    + reflexivity.
    + discriminate.
Defined.

(** X21. A sync from the dashboard never shows the provider's calendars.
    The sync function answers every request of the dashboard with an error
    (with the caller's credential, at the provider-token check), so whenever
    the call reaches the function, the dashboard shows one destructive toast
    "Failed to sync calendars" with the text the client gives for a non-2xx
    answer; the dashboard's settings and calendar list are left as they
    were, the updating flag is off, and the store is unchanged. *)
Theorem dashboard_sync_always_fails
    (user : option User.t) (c : Dashboard.Client) (st : Dashboard.State) (w : World) :
  let st' := fst (Dashboard.syncCalendars user c st w) in
  let w' := snd (Dashboard.syncCalendars user c st w) in
  db w' = db w /\
  Dashboard.settings st' = Dashboard.settings st /\
  Dashboard.calendars st' = Dashboard.calendars st /\
  Dashboard.updating st' = false /\
  exists t,
    Dashboard.toasts st' = (Dashboard.toasts st ++ [t])%list /\
    Dashboard.title t = "Failed to sync calendars" /\
    Dashboard.destructive t = true /\
    (Dashboard.client_error c Dashboard.InvokeSync = None ->
     Dashboard.toast_description t = non_2xx_message).
Proof.
  intros st' w'. subst st' w'.
  unfold Dashboard.syncCalendars, Dashboard.invoke_sync.
  destruct (Dashboard.client_error c Dashboard.InvokeSync) as [e|] eqn:Hinvoke.
  { cbn. repeat split. eexists. repeat split. discriminate. }
  destruct (SyncCalendars.serve _ (Dashboard.functions_env c) w) as [r w'] eqn:Hrun.
  destruct (fun Hm => sync_serve_cases _ (Dashboard.functions_env c) w r w' Hm Hrun)
    as (m & _ & -> & Hdb & _); [reflexivity|].
  cbn. split; [exact Hdb|]. repeat split. eexists. repeat split.
Qed.

(** The sample user, signed in, asks for a sync while the provider would
    list two calendars: the stale row stays on screen and in the store. *)
Lemma dashboard_sync_always_fails_witness :
  Dashboard.calendars
    (fst (Dashboard.syncCalendars (Some Sample.alice) Sample2.client_ok Sample2.loaded
            Sample.world_on))
  = [Dashboard.calendarItem Sample.stale] /\
  db (snd (Dashboard.syncCalendars (Some Sample.alice) Sample2.client_ok Sample2.loaded
             Sample.world_on))
  = db Sample.world_on.
Proof.
  destruct (dashboard_sync_always_fails
              (Some Sample.alice) Sample2.client_ok Sample2.loaded Sample.world_on)
    as (Hdb & _ & Hcalendars & _).
  split; [rewrite Hcalendars; reflexivity | exact Hdb].
Defined.

(** X22. A sync from the dashboard that fails changes nothing on screen but
    a toast: when the call of the function fails, or the function answers
    with an error, the dashboard's settings and calendar list are left as
    they were, one destructive toast "Failed to sync calendars" is shown,
    and the updating flag is off. *)
Theorem dashboard_sync_failure_keeps_the_lists
    (u : User.t) (c : Dashboard.Client) (st : Dashboard.State) (w : World) :
  let request :=
    {| method := "POST";
       authorization := Some ("Bearer " ++ Dashboard.access_token c) |} in
  Dashboard.client_error c Dashboard.InvokeSync <> None \/
  ~ is_success (fst (SyncCalendars.serve request (Dashboard.functions_env c) w)) ->
  let st' := fst (Dashboard.syncCalendars (Some u) c st w) in
  Dashboard.settings st' = Dashboard.settings st /\
  Dashboard.calendars st' = Dashboard.calendars st /\
  Dashboard.updating st' = false /\
  exists t,
    Dashboard.toasts st' = (Dashboard.toasts st ++ [t])%list /\
    Dashboard.title t = "Failed to sync calendars" /\
    Dashboard.destructive t = true.
Proof.
  intros request Hfail st'. subst st'.
  unfold Dashboard.syncCalendars, Dashboard.invoke_sync. fold request.
  destruct (Dashboard.client_error c Dashboard.InvokeSync) as [e|] eqn:Hinvoke.
  { cbn. repeat split. eexists. repeat split. }
  destruct Hfail as [Habs | Hfail]; [contradiction|].
  destruct (SyncCalendars.serve request (Dashboard.functions_env c) w) as [r w'] eqn:Hrun.
  cbn [fst] in Hfail.
  destruct (sync_serve_cases request (Dashboard.functions_env c) w r w' eq_refl Hrun)
    as (m & _ & -> & _).
  cbn. repeat split. eexists. repeat split.
Qed.

Lemma dashboard_sync_failure_keeps_the_lists_witness :
  Dashboard.calendars
    (fst (Dashboard.syncCalendars (Some Sample.alice)
            (Sample2.client Sample2.no_client_error Sample2.env_calendars_401)
            Sample2.loaded Sample.world_on))
  = Dashboard.calendars Sample2.loaded.
Proof.
  refine (proj1 (proj2 (dashboard_sync_failure_keeps_the_lists
                          Sample.alice
                          (Sample2.client Sample2.no_client_error Sample2.env_calendars_401)
                          Sample2.loaded Sample.world_on _))).
  right. intros (j & Hbody & Hfield). vm_compute in Hbody.
  injection Hbody as <-. discriminate Hfield.
Defined.

(** X23. What the dashboard offers follows the stored setup.  After a load
    whose two reads succeed (demo closed), the connect button is shown
    exactly when the user's settings row has no token (or there is no row),
    the sync button and the calendar list exactly when it has one, and the
    service toggle exactly when it has one, the user has at least one
    calendar row, and a non-empty calendar id is selected.  After a first
    load whose settings read fails, no settings are loaded, and the
    dashboard shows the sync button and the calendar list as if connected,
    and no service toggle. *)
Theorem dashboard_offers_what_the_setup_allows
    (u : User.t) (c : Dashboard.Client) (d : Database) (st : Dashboard.State) :
  Dashboard.showDemo st = false ->
  let st' := Dashboard.loadUserData (Some u) c d st in
  (Dashboard.client_error c Dashboard.LoadSettings = None ->
   Dashboard.client_error c Dashboard.LoadCalendars = None ->
   let row := user_settings d !! User.id u in
   let connected := bool_decide (row ≫= UserSettings.google_access_token <> None) in
   Dashboard.render st'
   = Dashboard.Main (negb connected) connected connected
       (connected
        && (0 <? length (rows_of (User.id u) (user_calendars d)))%nat
        && truthy (row ≫= UserSettings.selected_calendar_id))) /\
  (forall e,
     Dashboard.client_error c Dashboard.LoadSettings = Some e ->
     Dashboard.code e <> "PGRST116" ->
     Dashboard.settings st = None ->
     Dashboard.settings st' = None /\
     Dashboard.render st' = Dashboard.Main false true true false).
Proof.
  intros Hdemo st'. subst st'. unfold Dashboard.loadUserData. split.
  - intros Hset Hcal. rewrite Hset, Hcal. cbv zeta.
    unfold Dashboard.render, Dashboard.canEnableService, Dashboard.hasGoogleConnection,
      Dashboard.hasCalendars.
    cbn [Dashboard.setLoading Dashboard.setCalendars Dashboard.setSettings
         Dashboard.loading Dashboard.showDemo Dashboard.settings Dashboard.calendars].
    rewrite Hdemo, List.length_map.
    destruct (user_settings d !! User.id u) as [row|]; reflexivity.
  - intros e Hset Hcode Hnone. rewrite Hset. apply String.eqb_neq in Hcode.
    rewrite Hcode.
    unfold Dashboard.render, Dashboard.canEnableService, Dashboard.hasGoogleConnection.
    cbn [Dashboard.setLoading Dashboard.toast Dashboard.loading Dashboard.showDemo
         Dashboard.settings Dashboard.calendars].
    rewrite Hdemo, Hnone. cbn. rewrite andb_false_r. split; reflexivity.
Qed.

Lemma dashboard_offers_what_the_setup_allows_witness :
  Dashboard.render Sample2.loaded = Dashboard.Main false true true true /\
  Dashboard.render
    (Dashboard.loadUserData (Some Sample.alice) Sample2.client_load_fails
       (db Sample.world_on) Dashboard.initial)
  = Dashboard.Main false true true false.
Proof.
  destruct (dashboard_offers_what_the_setup_allows Sample.alice Sample2.client_ok
              (db Sample.world_on) Dashboard.initial eq_refl) as [Hok _].
  destruct (dashboard_offers_what_the_setup_allows Sample.alice Sample2.client_load_fails
              (db Sample.world_on) Dashboard.initial eq_refl) as [_ Hfail].
  split.
  - exact (Hok eq_refl eq_refl).
  - refine (proj2 (Hfail Sample2.timeout eq_refl _ eq_refl)). discriminate.
Defined.

(** ** The calendar list *)

Lemma checked_cards_of_absent (selected : string) (calendars : list Dashboard.CalendarItem) :
  ~ In selected (map Dashboard.id calendars) ->
  List.filter CalendarList.check (map (CalendarList.card (Some selected)) calendars) = [].
Proof.
  induction calendars as [|a calendars IH]; cbn [map List.filter]; [reflexivity|].
  intros Hnotin. cbn [CalendarList.card CalendarList.check CalendarList.is_selected].
  destruct (String.eqb_spec selected (Dashboard.id a)) as [-> | _].
  - exfalso. apply Hnotin. left. reflexivity.
  - apply IH. intros Hin. apply Hnotin. right. exact Hin.
Qed.

(** X24. The calendar list marks the selection and nothing else: it shows
    the empty-state card exactly when there is no calendar, and otherwise
    one card per calendar in order; a card carries the check mark and the
    label "Selected" exactly when its calendar id is the selected one, and
    "Select" otherwise; when the calendar ids are distinct and the selected
    id is among them, exactly one card is marked; with nothing selected none
    is.  A click on a card selects its calendar unless the list is disabled. *)
Theorem calendar_list_marks_the_selection
    (calendars : list Dashboard.CalendarItem) (selectedCalendarId : option string) :
  (CalendarList.render calendars selectedCalendarId = None <-> calendars = []) /\
  (forall cards, CalendarList.render calendars selectedCalendarId = Some cards ->
     map CalendarList.key cards = map Dashboard.id calendars /\
     (forall card, In card cards ->
        (CalendarList.check card = true <-> selectedCalendarId = Some (CalendarList.key card)) /\
        CalendarList.button_label card
        = (if CalendarList.check card then "Selected" else "Select")) /\
     (selectedCalendarId = None -> List.filter CalendarList.check cards = []) /\
     (forall selected,
        selectedCalendarId = Some selected ->
        NoDup (map Dashboard.id calendars) ->
        In selected (map Dashboard.id calendars) ->
        exists card, List.filter CalendarList.check cards = [card] /\
                     CalendarList.key card = selected)) /\
  (forall calendar,
     CalendarList.card_click true calendar = [] /\
     CalendarList.card_click false calendar = [Dashboard.id calendar]).
Proof.
  split.
  { unfold CalendarList.render. destruct calendars; cbn; split; congruence. }
  split; [|intros calendar; split; reflexivity].
  intros cards Hrender. unfold CalendarList.render in Hrender.
  destruct (length calendars =? 0)%nat; [discriminate|]. injection Hrender as <-.
  split; [rewrite List.map_map; reflexivity|].
  split.
  { intros card Hin. apply List.in_map_iff in Hin as (a & <- & _).
    cbn [CalendarList.card CalendarList.check CalendarList.key CalendarList.button_label].
    split; [|reflexivity].
    unfold CalendarList.is_selected. destruct selectedCalendarId as [selected|].
    - destruct (String.eqb_spec selected (Dashboard.id a)); split; congruence.
    - split; discriminate. }
  split.
  { intros ->. induction calendars as [|a calendars IH]; [reflexivity | exact IH]. }
  intros selected -> Hnodup Hin.
  induction calendars as [|a calendars IH]; [destruct Hin|].
  cbn [map] in Hnodup, Hin. apply NoDup_cons in Hnodup as [Hnotin Hnodup].
  cbn [map List.filter CalendarList.card CalendarList.check CalendarList.is_selected].
  destruct (String.eqb_spec selected (Dashboard.id a)) as [Heq | Hne].
  - exists (CalendarList.card (Some selected) a). split; [|symmetry; exact Heq].
    f_equal. apply checked_cards_of_absent. rewrite Heq.
    intros Habs. apply Hnotin. apply list_elem_of_In. exact Habs.
  - destruct Hin as [Habs | Hin]; [congruence|]. exact (IH Hnodup Hin).
Qed.

Lemma calendar_list_marks_the_selection_witness :
  exists card,
    List.filter CalendarList.check
      (map (CalendarList.card (Some "family@example.com"))
         [item_of_provider Sample.work; item_of_provider Sample.family]) = [card] /\
    CalendarList.key card = "family@example.com".
Proof.
  refine (proj2 (proj2 (proj2 (proj1 (proj2
            (calendar_list_marks_the_selection
               [item_of_provider Sample.work; item_of_provider Sample.family]
               (Some "family@example.com")))
            _ eq_refl))) "family@example.com" eq_refl _ _).
  - apply (bool_decide_unpack _). vm_compute. reflexivity.
  - right. left. reflexivity.
Defined.
